(** * analyze_xunit_percentage_changed: a shallow embedding

    The script [scripts/analyze_xunit_percentage_changed.py] loads two sets of
    JUnit reports, flattens each into a dict from test key to duration,
    computes the percentage change of every shared test and raises
    [ThresholdExceeded] when a test, or the total, grew by more than a
    threshold.

    Python values are modelled as the script has them:
    - a duration is a Python [float], i.e. an IEEE 754 binary64 number, here a
      primitive float; arithmetic is the primitive one and [/] raises
      [ZeroDivisionError] on a zero divisor, as Python's does;
    - a [dict] is an association list without duplicate keys, kept in
      insertion order (the order [sum(d.values())] adds in);
    - a [set] of strings is a duplicate-free list; Python leaves its iteration
      order unspecified, and every statement below about a set or about a dict
      built by iterating a set is phrased through membership and lookup;
    - an exception is a constructor of [exn], and a function that can raise
      returns a [result]. *)

From Stdlib Require Import ZArith List String Ascii Bool Lia.
From Stdlib Require Import PrimFloat FloatOps SpecFloat.
Import ListNotations.

Set Warnings "-register-all".

(** ** Python dicts with string keys *)

Module PyDict.

Section Dict.
Variable V : Type.

Definition dict : Type := list (string * V).

Definition empty : dict := [].

(** [d.get(k)]: the value under [k], if any. *)
Fixpoint get (k : string) (d : dict) : option V :=
  match d with
  | [] => None
  | (k', v) :: d' => if String.eqb k' k then Some v else get k d'
  end.

(** [d[k] = v]: overwrite in place when [k] is present, append otherwise. *)
Fixpoint setitem (k : string) (v : V) (d : dict) : dict :=
  match d with
  | [] => [(k, v)]
  | (k', v') :: d' =>
      if String.eqb k' k then (k', v) :: d' else (k', v') :: setitem k v d'
  end.

(** [d.update(other)]: store the items of [other] in their order. *)
Definition update (d other : dict) : dict :=
  fold_left (fun acc kv => setitem (fst kv) (snd kv) acc) other d.

Definition keys (d : dict) : list string := map fst d.
Definition values (d : dict) : list V := map snd d.

(** [k in d] *)
Definition contains (k : string) (d : dict) : bool :=
  match get k d with Some _ => true | None => false end.

(** Truth value of a dict: non-empty. *)
Definition truthy (d : dict) : bool :=
  match d with [] => false | _ :: _ => true end.

(** The value a sequence of writes leaves under [k]: the last one written,
    if any. *)
Definition last_write k (writes : list (string * V)) : option V :=
  fold_left
    (fun acc kv => if String.eqb (fst kv) k then Some (snd kv) else acc)
    writes None.
End Dict.

Arguments empty {V}.
Arguments get {V} k d.
Arguments setitem {V} k v d.
Arguments update {V} d other.
Arguments keys {V} d.
Arguments values {V} d.
Arguments contains {V} k d.
Arguments truthy {V} d.
Arguments last_write {V} k writes.

End PyDict.

Import PyDict.

(** ** Python sets of strings *)

Module PySet.

Definition pyset : Type := list string.

Definition mem (k : string) (s : list string) : bool :=
  existsb (String.eqb k) s.

(** [set(iterable)] *)
Definition of_list (l : list string) : pyset := nodup string_dec l.

(** [s.intersection(iterable)] *)
Definition intersection (s : pyset) (l : list string) : pyset :=
  filter (fun k => mem k l) s.

(** [s.difference(iterable)] *)
Definition difference (s : pyset) (l : list string) : pyset :=
  filter (fun k => negb (mem k l)) s.

End PySet.

(** ** Exceptions and results *)

Inductive exn : Type :=
| FileNotFoundError (msg : string)
| ThresholdExceeded (msg : string) (payload : dict float)
| ZeroDivisionError
| TypeError
| KeyError (key : string)
| UnboundLocalError (var : string)
| JUnitXmlError
| OSError.

Inductive result (A : Type) : Type :=
| Ok (a : A)
| Raise (e : exn).

Arguments Ok {A} a.
Arguments Raise {A} e.

Definition bind {A B : Type} (r : result A) (k : A -> result B) : result B :=
  match r with
  | Ok a => k a
  | Raise e => Raise e
  end.

Notation "x <- e ;; k" := (bind e (fun x => k))
  (at level 61, e at next level, right associativity).

(** A [for] loop whose body can raise: the state is threaded through the
    elements in order and the first exception ends the loop. *)
Fixpoint for_each {A S : Type} (body : A -> S -> result S) (l : list A) (s : S)
  : result S :=
  match l with
  | [] => Ok s
  | a :: l' => s' <- body a s ;; for_each body l' s'
  end.

(** ** Python numbers *)

Module PyNum.

(** [x == 0] for a float [x]: true of both zeros, false of NaN. *)
Definition is_zero (x : float) : bool := PrimFloat.eqb x 0%float.

(** [x / y] *)
Definition truediv (x y : float) : result float :=
  if is_zero y then Raise ZeroDivisionError else Ok (PrimFloat.div x y).

(** [sum(values)]: the floats are added left to right, from 0. *)
Definition sum (l : list float) : float :=
  fold_left PrimFloat.add l 0%float.

(** The values [options.threshold] can hold: the [int] default or the
    [str] taken from the command line. *)
Inductive pyval : Type :=
| PyInt (z : Z)
| PyStr (s : string).

Definition is_number (t : pyval) : bool :=
  match t with PyInt _ => true | PyStr _ => false end.

(** A float against an int: Python compares the two exact values, and NaN
    is unordered.  A finite float is [m * 2^e] with an integer mantissa. *)
Definition float_compare_int (v : float) (z : Z) : option comparison :=
  match Prim2SF v with
  | S754_nan => None
  | S754_infinity s => Some (if s then Lt else Gt)
  | S754_zero _ => Some (0 ?= z)%Z
  | S754_finite s m e =>
      let mz := if s then Z.neg m else Z.pos m in
      Some (if (0 <=? e)%Z then (mz * 2 ^ e ?= z)%Z
            else (mz ?= z * 2 ^ (- e))%Z)
  end.

(** [v > z] *)
Definition float_gt_int (v : float) (z : Z) : bool :=
  match float_compare_int v z with Some Gt => true | _ => false end.

(** [v == z] *)
Definition float_eq_int (v : float) (z : Z) : bool :=
  match float_compare_int v z with Some Eq => true | _ => false end.

(** [v > t]: ordering a float against a [str] raises [TypeError]. *)
Definition gt (v : float) (t : pyval) : result bool :=
  match t with
  | PyInt z => Ok (float_gt_int v z)
  | PyStr _ => Raise TypeError
  end.

(** [v == t]: a float never equals a [str]. *)
Definition eq (v : float) (t : pyval) : bool :=
  match t with
  | PyInt z => float_eq_int v z
  | PyStr _ => false
  end.

End PyNum.

(** [d[k]]: raises [KeyError] when [k] is absent. *)
Definition getitem (d : dict float) (k : string) : result float :=
  match get k d with
  | Some v => Ok v
  | None => Raise (KeyError k)
  end.

(** ** The delta calculator *)

(** One iteration of the loop of [calculate_changed].  The [int] [0] stored
    under the zero guard is kept as the float [0.0], which is equal to it
    and compares as it does against every threshold. *)
Definition changed_step (base compare_to : dict float) (key : string)
    (changed : dict float) : result (dict float) :=
  b <- getitem base key ;;
  if PyNum.is_zero b then Ok (setitem key 0%float changed)
  else
    c <- getitem compare_to key ;;
    b1 <- getitem base key ;;
    b2 <- getitem base key ;;
    q <- PyNum.truediv (PrimFloat.sub c b1) b2 ;;
    Ok (setitem key (PrimFloat.mul q 100%float) changed).

Definition calculate_changed (base compare_to : dict float)
  : result (dict float) :=
  let both := PySet.intersection (PySet.of_list (keys base)) (keys compare_to) in
  for_each (changed_step base compare_to) both empty.

(** ** Structured reports *)

(** Modelled from the spec: the in-memory report of the parsing library
    ([junitparser]), as far as the script uses it.  A container ([JUnitXml]
    or [TestSuite]) has a [name] and is iterable; an item it yields is either
    a [TestSuite], itself a container, or a test case with [classname],
    [name] and [time].  An absent name attribute reads as [None]; a test
    case carries its elapsed time, a float. *)
Inductive container : Type :=
| Container (name : option string) (items : list item)
with item : Type :=
| Suite (s : container)
| Case (classname name : option string) (time : float).

Definition container_name (xml : container) : option string :=
  match xml with Container n _ => n end.

Definition container_items (xml : container) : list item :=
  match xml with Container _ its => its end.

(** How an f-string renders an attribute. *)
Definition fmt (a : option string) : string :=
  match a with
  | Some s => s
  | None => "None"
  end.

(** [f"{xml.name}.{item.classname}.{item.name}"] *)
Definition test_key (xml_name classname name : option string) : string :=
  (fmt xml_name ++ "." ++ fmt classname ++ "." ++ fmt name)%string.

Fixpoint convert_junit_to_dict (xml : container) : dict float :=
  match xml with
  | Container xml_name items =>
      fold_left
        (fun tests it =>
           match it with
           | Suite s => update tests (convert_junit_to_dict s)
           | Case classname name time =>
               setitem (test_key xml_name classname name) time tests
           end)
        items empty
  end.

(** ** The filesystem and the report loader *)

(** Modelled from the spec: what [JUnitXml.fromfile] returns.  The root
    element of the file is either [testsuites] (a [JUnitXml]) or a single
    [testsuite]. *)
Inductive parsed : Type :=
| RootSuites (xml : container)
| RootSuite (xml : container).

Definition parsed_container (p : parsed) : container :=
  match p with RootSuites xml | RootSuite xml => xml end.

(** A path names a regular file, a directory or something else (a device, a
    socket).  A regular file either parses as a report or does not. *)
Inductive fsnode : Type :=
| File (content : option parsed)
| Dir (entries : list (string * fsnode))
| Special.

Definition filesystem : Type := string -> option fsnode.

Definition is_dir (n : fsnode) : bool :=
  match n with Dir _ => true | _ => false end.

(** Modelled from the spec: [JUnitXml.fromfile(path)] on the node at [path];
    a file that is not a report makes the parser raise. *)
Definition fromfile (n : fsnode) : result parsed :=
  match n with
  | File (Some p) => Ok p
  | File None => Raise JUnitXmlError
  | Dir _ | Special => Raise OSError
  end.

(** Modelled from the spec: [xml += other] merges a parsed report into the
    accumulated [JUnitXml].  The items of a [testsuites] root are added one
    by one after those already there, a [testsuite] root is added as one
    suite. *)
Definition iadd (xml : container) (other : parsed) : container :=
  match xml with
  | Container n its =>
      match other with
      | RootSuites o => Container n (its ++ container_items o)
      | RootSuite o => Container n (its ++ [Suite o])
      end
  end.

(** [s.endswith(suffix)] *)
Definition endswith (s suffix : string) : bool :=
  let n := String.length s in
  let m := String.length suffix in
  (m <=? n) && String.eqb (substring (n - m) m s) suffix.

(** [os.walk(top)]: for the directory and then each of its sub-directories in
    turn, the non-directory entries ([files]) with the node each names. *)
Fixpoint os_walk (top : fsnode) : list (list (string * fsnode)) :=
  match top with
  | Dir entries =>
      filter (fun e => negb (is_dir (snd e))) entries
        :: flat_map (fun e => os_walk (snd e)) entries
  | _ => []
  end.

(** The inner loop of the directory branch, over the [files] of one
    directory.  [tqdm], or [iter] in its place, yields the elements of the
    list it is given, in order. *)
Definition merge_files (files : list (string * fsnode)) (ret_xml : container)
  : result container :=
  for_each
    (fun file ret_xml => p <- fromfile (snd file) ;; Ok (iadd ret_xml p))
    (filter (fun f => endswith (fst f) "xml") files)
    ret_xml.

Definition not_found_message (path : string) : string :=
  ("Path '" ++ path ++ "', not found")%string.

Definition parse_junit_reports (fs : filesystem) (path_to_reports : string)
  : result (dict float) :=
  match fs path_to_reports with
  | None => Raise (FileNotFoundError (not_found_message path_to_reports))
  | Some (File c) =>
      ret_xml <- fromfile (File c) ;;
      Ok (convert_junit_to_dict (parsed_container ret_xml))
  | Some (Dir entries) =>
      ret_xml <- for_each merge_files (os_walk (Dir entries))
                   (Container None []) ;;
      Ok (convert_junit_to_dict ret_xml)
  | Some Special => Raise (UnboundLocalError "ret_xml")
  end.

(** ** The command line *)

(** The arguments as given: two positional paths and, when [-t] or
    [--threshold] is present, the text that follows it. *)
Record command_line : Type := {
  arg_base : string;
  arg_compare_to : string;
  arg_threshold : option string
}.

Record options : Type := {
  base : string;
  compare_to : string;
  threshold : PyNum.pyval
}.

(** [parse_args]: the threshold option declares [default=10] and no [type],
    so a value given on the command line is stored as the [str] it is. *)
Definition parse_args (argv : command_line) : options :=
  {| base := arg_base argv;
     compare_to := arg_compare_to argv;
     threshold :=
       match arg_threshold argv with
       | None => PyNum.PyInt 10
       | Some s => PyNum.PyStr s
       end |}.

(** ** The threshold checks *)

Definition nl : string := String (ascii_of_nat 10) EmptyString.

Definition per_test_message : string :=
  ("Test time increase threshold exceeded for the following testcases:" ++ nl)%string.

Definition total_message : string :=
  ("Total test time increase threshold exceeded, added tests (in seconds):" ++ nl)%string.

(** [{k: v for k, v in changed.items() if v > threshold}] *)
Definition over_threshold (changed : dict float) (thr : PyNum.pyval)
  : result (dict float) :=
  for_each
    (fun kv acc =>
       b <- PyNum.gt (snd kv) thr ;;
       Ok (if b then setitem (fst kv) (snd kv) acc else acc))
    changed empty.

(** [{k: compare_to[k] for k in additive}] *)
Definition added_time (compare_to : dict float) (additive : PySet.pyset)
  : result (dict float) :=
  for_each
    (fun k acc => v <- getitem compare_to k ;; Ok (setitem k v acc))
    additive empty.

Definition total_percentage_changed (base compare_to : dict float)
  : result float :=
  let total_time_base := PyNum.sum (values base) in
  let total_time_compare := PyNum.sum (values compare_to) in
  q <- PyNum.truediv (PrimFloat.sub total_time_compare total_time_base)
         total_time_base ;;
  Ok (PrimFloat.mul q 100%float).

(** The body of [main] once the reports are loaded and the deltas computed:
    the per-test check, then the check of the total. *)
Definition check (changed base compare_to : dict float) (thr : PyNum.pyval)
  : result unit :=
  over <- over_threshold changed thr ;;
  if truthy over then Raise (ThresholdExceeded per_test_message over)
  else
    let additive :=
      PySet.difference (PySet.of_list (keys compare_to)) (keys base) in
    total <- total_percentage_changed base compare_to ;;
    b <- PyNum.gt total thr ;;
    if b then
      added <- added_time compare_to additive ;;
      Raise (ThresholdExceeded total_message added)
    else Ok tt.

Definition main (fs : filesystem) (argv : command_line) : result unit :=
  let opts := parse_args argv in
  base <- parse_junit_reports fs (base opts) ;;
  compare_to <- parse_junit_reports fs (compare_to opts) ;;
  changed <- calculate_changed base compare_to ;;
  check changed base compare_to (threshold opts).

(** ** The delta calculator on a store

    To state that [calculate_changed] has no side effects, the dicts are
    placed in a store of objects and the function is given the references it
    receives in Python.  Every reference the program holds is to an object
    of the store; [changed = dict()] allocates a new one. *)

Module Heap.

Definition loc : Type := nat.
Definition heap : Type := list (dict float).

Definition deref (h : heap) (l : loc) : dict float := nth l h empty.

(** A new object: its reference is the next free one. *)
Definition alloc (d : dict float) (h : heap) : loc * heap :=
  (List.length h, h ++ [d]).

(** Mutation of the object at [l]. *)
Fixpoint store (l : loc) (d : dict float) (h : heap) : heap :=
  match h, l with
  | [], _ => []
  | _ :: h', O => d :: h'
  | x :: h', S l' => x :: store l' d h'
  end.

Definition allocated (h : heap) (l : loc) : Prop := l < List.length h.

End Heap.

Import Heap.

(** One iteration of the loop, on references: [changed[key] = ...] mutates
    the object [changed] refers to. *)
Definition changed_step_in (base compare_to changed : loc) (key : string)
    (h : heap) : result heap :=
  b <- getitem (deref h base) key ;;
  if PyNum.is_zero b then
    Ok (store changed (setitem key 0%float (deref h changed)) h)
  else
    c <- getitem (deref h compare_to) key ;;
    b1 <- getitem (deref h base) key ;;
    b2 <- getitem (deref h base) key ;;
    q <- PyNum.truediv (PrimFloat.sub c b1) b2 ;;
    Ok (store changed
          (setitem key (PrimFloat.mul q 100%float) (deref h changed)) h).

Definition calculate_changed_in (base compare_to : loc) (h : heap)
  : result (loc * heap) :=
  let both :=
    PySet.intersection (PySet.of_list (keys (deref h base)))
      (keys (deref h compare_to)) in
  let (changed, h1) := alloc empty h in
  h2 <- for_each (changed_step_in base compare_to changed) both h1 ;;
  Ok (changed, h2).

(** * Definitions used to state the properties *)

(** ** The delta calculator *)

(** The signed percentage change of one test, as the data model words it:
    [(compare - base) / base * 100], or [0] if [base == 0]. *)
Definition percentage (b c : float) : float :=
  if PyNum.is_zero b then 0%float
  else PrimFloat.mul (PrimFloat.div (PrimFloat.sub c b) b) 100%float.

(** The change of [k], defined when both runs have [k]. *)
Definition delta (base compare_to : dict float) (k : string) : option float :=
  match get k base, get k compare_to with
  | Some b, Some c => Some (percentage b c)
  | _, _ => None
  end.

(** ** The threshold checks *)

(** [v > thr] as a truth value, for a numeric [thr]. *)
Definition exceeds (thr : PyNum.pyval) (v : float) : bool :=
  match PyNum.gt v thr with
  | Ok b => b
  | Raise _ => false
  end.

(** The items of [changed] over the threshold. *)
Definition offending (changed : dict float) (thr : PyNum.pyval) : dict float :=
  filter (fun kv => exceeds thr (snd kv)) changed.

(** ** Report trees *)

(** Induction over a report tree: a property holds of a container when it
    holds of every suite among its items. *)
Section ContainerInduction.
Variable P : container -> Prop.

Definition holds_below (it : item) : Prop :=
  match it with
  | Suite s => P s
  | Case _ _ _ => True
  end.

Hypothesis step :
  forall n its, Forall holds_below its -> P (Container n its).

Fixpoint container_induction (xml : container) : P xml :=
  match xml with
  | Container n its =>
      step n its
        ((fix go (l : list item) : Forall holds_below l :=
            match l with
            | [] => Forall_nil _
            | it :: l' =>
                Forall_cons it
                  (match it return holds_below it with
                   | Suite s => container_induction s
                   | Case _ _ _ => I
                   end)
                  (go l')
            end) its)
  end.
End ContainerInduction.

(** The records of a report in the order the flattening meets them: one per
    test case, keyed as the flattening keys it. *)
Fixpoint records (xml : container) : list (string * float) :=
  match xml with
  | Container xml_name items =>
      flat_map
        (fun it =>
           match it with
           | Suite s => records s
           | Case classname name time =>
               [(test_key xml_name classname name, time)]
           end)
        items
  end.

(** A test case of the tree, with the name of the container that holds it
    directly. *)
Inductive leaf_in
  : container -> option string -> option string -> option string -> float
    -> Prop :=
| leaf_here n its c nm t :
    In (Case c nm t) its -> leaf_in (Container n its) n c nm t
| leaf_below n its s p c nm t :
    In (Suite s) its -> leaf_in s p c nm t ->
    leaf_in (Container n its) p c nm t.

(** The body of the loop of [convert_junit_to_dict]. *)
Definition convert_step (xml_name : option string) (tests : dict float)
    (it : item) : dict float :=
  match it with
  | Suite s => update tests (convert_junit_to_dict s)
  | Case classname name time =>
      setitem (test_key xml_name classname name) time tests
  end.

(** ** The two checks after the delta calculator, as [main] chains them *)

Definition run_check (base compare_to : dict float) (thr : PyNum.pyval)
  : result unit :=
  changed <- calculate_changed base compare_to ;;
  check changed base compare_to thr.

(** ** Inputs of the examples *)

(** A report in which a nested suite holds the only test case. *)
Definition nested_report : container :=
  Container (Some "R"%string)
    [Suite (Container (Some "S"%string)
              [Case (Some "C"%string) (Some "t"%string) 1%float])].

(** One suite with one test case, as the only content of a report file. *)
Definition one_case_file (suite test : string) (time : float) : fsnode :=
  File (Some (RootSuite
                (Container (Some suite)
                   [Case (Some "C"%string) (Some test) time]))).

(** A directory with a report, a text file and a report whose name ends in
    ["xml"] without the dot. *)
Definition reports_dir : fsnode :=
  Dir [("results.xml"%string, one_case_file "A" "t1" 1%float);
       ("notes.txt"%string, File None);
       ("resultsxml"%string, one_case_file "B" "t2" 2%float)].

(** The same directory when the third file is not a report. *)
Definition broken_dir : fsnode :=
  Dir [("results.xml"%string, one_case_file "A" "t1" 1%float);
       ("notes.txt"%string, File None);
       ("resultsxml"%string, File None)].

Definition single_path (path : string) (n : fsnode) : filesystem :=
  fun p => if String.eqb p path then Some n else None.

(** Scenario A as two report files. *)
Definition two_runs : filesystem :=
  fun p =>
    if String.eqb p "base.xml" then Some (one_case_file "S" "t1" 10%float)
    else if String.eqb p "new.xml" then Some (one_case_file "S" "t1" 11%float)
    else None.

(** ** The records of a directory *)

(** The records a parsed file brings to the accumulated report, which has no
    name: those of its suite when the root is one suite, those of its items
    when the root is [testsuites]. *)
Definition parsed_records (p : parsed) : list (string * float) :=
  match p with
  | RootSuite o => records o
  | RootSuites o => records (Container None (container_items o))
  end.

(** ** Directory trees that differ by one file *)

(** The files of one directory the loop of the loader selects. *)
Definition selected (files : list (string * fsnode))
  : list (string * fsnode) :=
  filter (fun f => endswith (fst f) "xml") files.

(** [extra_file name n d d']: the directory tree [d'] is [d] with one more
    entry, [name] naming [n], in the directory itself or in a directory
    below it. *)
Inductive extra_file (name : string) (n : fsnode) : fsnode -> fsnode -> Prop :=
| extra_here pre post :
    extra_file name n (Dir (pre ++ post)) (Dir (pre ++ (name, n) :: post))
| extra_below pre post dname d d' :
    extra_file name n d d' ->
    extra_file name n (Dir (pre ++ (dname, d) :: post))
      (Dir (pre ++ (dname, d') :: post)).

(** * Properties *)

(** ** Dicts *)

Section DictFacts.
Variable V : Type.
Implicit Types (d : dict V) (k : string) (v : V).

Lemma get_setitem_eq k v d : get k (setitem k v d) = Some v.
Proof.
  induction d as [|[k' v'] d IH]; simpl.
  - now rewrite String.eqb_refl.
  - destruct (String.eqb k' k) eqn:E; simpl; rewrite E; auto.
Qed.

Lemma get_setitem_ne k k' v d :
  k' <> k -> get k' (setitem k v d) = get k' d.
Proof.
  intros Hne. induction d as [|[k0 v0] d IH]; simpl.
  - destruct (String.eqb k k') eqn:E; auto.
    apply String.eqb_eq in E. congruence.
  - destruct (String.eqb k0 k) eqn:E; simpl.
    + apply String.eqb_eq in E. subst k0.
      destruct (String.eqb k k') eqn:E'; auto.
      apply String.eqb_eq in E'. congruence.
    + now rewrite IH.
Qed.

Lemma get_setitem k k' v d :
  get k' (setitem k v d) = if String.eqb k k' then Some v else get k' d.
Proof.
  destruct (String.eqb k k') eqn:E.
  - apply String.eqb_eq in E. subst. apply get_setitem_eq.
  - apply String.eqb_neq in E. apply get_setitem_ne. congruence.
Qed.

Lemma keys_setitem k v d :
  forall k', In k' (keys (setitem k v d)) <-> k' = k \/ In k' (keys d).
Proof.
  intros k'. induction d as [|[k0 v0] d IH]; simpl.
  - intuition.
  - destruct (String.eqb k0 k) eqn:E; simpl.
    + apply String.eqb_eq in E. subst. intuition.
    + rewrite IH. intuition.
Qed.

Lemma get_in_keys k d : In k (keys d) <-> get k d <> None.
Proof.
  induction d as [|[k0 v0] d IH]; simpl.
  - intuition.
  - destruct (String.eqb k0 k) eqn:E.
    + apply String.eqb_eq in E. subst. intuition congruence.
    + apply String.eqb_neq in E. rewrite <- IH. intuition congruence.
Qed.

Lemma get_none_not_in k d : get k d = None <-> ~ In k (keys d).
Proof.
  rewrite get_in_keys. destruct (get k d); intuition congruence.
Qed.

Lemma get_some_in k v d : get k d = Some v -> In (k, v) d.
Proof.
  induction d as [|[k0 v0] d IH]; simpl; try discriminate.
  destruct (String.eqb k0 k) eqn:E.
  - apply String.eqb_eq in E. intros [= ->]. subst. now left.
  - auto.
Qed.

Lemma in_get_nodup k v d : NoDup (keys d) -> In (k, v) d -> get k d = Some v.
Proof.
  induction d as [|[k0 v0] d IH]; simpl; intros Hnd Hin; [easy|].
  inversion Hnd as [|? ? Hnot Hnd']; subst.
  destruct Hin as [[= -> ->]|Hin].
  - now rewrite String.eqb_refl.
  - destruct (String.eqb k0 k) eqn:E; auto.
    apply String.eqb_eq in E. subst k0.
    exfalso. apply Hnot. change k with (fst (k, v)). now apply in_map.
Qed.

Lemma nodup_setitem k v d : NoDup (keys d) -> NoDup (keys (setitem k v d)).
Proof.
  induction d as [|[k0 v0] d IH]; simpl; intros Hnd.
  - constructor; [easy | constructor].
  - inversion Hnd as [|? ? Hnot Hnd']; subst.
    destruct (String.eqb k0 k) eqn:E; simpl.
    + now constructor.
    + constructor; auto.
      fold (keys (setitem k v d)). rewrite keys_setitem.
      apply String.eqb_neq in E. intuition.
Qed.

Lemma last_write_from k (writes : list (string * V)) (init : option V) :
  fold_left
    (fun acc kv => if String.eqb (fst kv) k then Some (snd kv) else acc)
    writes init
  = match last_write k writes with Some v => Some v | None => init end.
Proof.
  unfold last_write. revert init.
  induction writes as [|[k0 v0] ws IH]; intros init; simpl; auto.
  rewrite IH. rewrite (IH (if String.eqb k0 k then Some v0 else None)).
  destruct (fold_left _ ws None); auto.
  destruct (String.eqb k0 k); auto.
Qed.

Lemma last_write_cons k k0 v0 (ws : list (string * V)) :
  last_write k ((k0, v0) :: ws)
  = match last_write k ws with
    | Some v => Some v
    | None => if String.eqb k0 k then Some v0 else None
    end.
Proof.
  unfold last_write at 1. simpl. apply last_write_from.
Qed.

Lemma last_write_app k (w1 w2 : list (string * V)) :
  last_write k (w1 ++ w2)
  = match last_write k w2 with Some v => Some v | None => last_write k w1 end.
Proof.
  unfold last_write at 1. rewrite fold_left_app. apply last_write_from.
Qed.

Lemma get_update k d (other : list (string * V)) :
  get k (update d other)
  = match last_write k other with Some v => Some v | None => get k d end.
Proof.
  unfold update. revert d.
  induction other as [|[k0 v0] ws IH]; intros d; simpl; auto.
  rewrite IH, last_write_cons, get_setitem.
  destruct (last_write k ws); auto.
  now destruct (String.eqb k0 k).
Qed.

Lemma nodup_update d (other : list (string * V)) :
  NoDup (keys d) -> NoDup (keys (update d other)).
Proof.
  unfold update. revert d.
  induction other as [|[k0 v0] ws IH]; intros d Hnd; simpl; auto.
  apply IH. now apply nodup_setitem.
Qed.

(** A dict rereads as itself: looking a key up in a duplicate-free dict
    returns the last (only) value written for it. *)
Lemma last_write_nodup k d :
  NoDup (keys d) -> last_write k d = get k d.
Proof.
  induction d as [|[k0 v0] d IH]; intros Hnd; simpl; auto.
  inversion Hnd as [|? ? Hnot Hnd']; subst.
  rewrite last_write_cons, IH by assumption.
  destruct (String.eqb k0 k) eqn:E.
  - apply String.eqb_eq in E. subst k0.
    apply get_none_not_in in Hnot. now rewrite Hnot.
  - now destruct (get k d).
Qed.
End DictFacts.

(** ** Sets *)

Lemma mem_In k l : PySet.mem k l = true <-> In k l.
Proof.
  unfold PySet.mem. rewrite existsb_exists. split.
  - intros [x [Hin E]]. apply String.eqb_eq in E. now subst.
  - intros Hin. exists k. split; auto. apply String.eqb_refl.
Qed.

Lemma mem_false k l : PySet.mem k l = false <-> ~ In k l.
Proof.
  rewrite <- mem_In. destruct (PySet.mem k l); intuition congruence.
Qed.

Lemma in_of_list k l : In k (PySet.of_list l) <-> In k l.
Proof. apply nodup_In. Qed.

Lemma in_intersection k s l :
  In k (PySet.intersection s l) <-> In k s /\ In k l.
Proof.
  unfold PySet.intersection. now rewrite filter_In, mem_In.
Qed.

Lemma in_difference k s l :
  In k (PySet.difference s l) <-> In k s /\ ~ In k l.
Proof.
  unfold PySet.difference.
  now rewrite filter_In, negb_true_iff, mem_false.
Qed.

(** ** The error monad *)

Lemma bind_ok {A B} (r : result A) (k : A -> result B) b :
  bind r k = Ok b -> exists a, r = Ok a /\ k a = Ok b.
Proof. destruct r; simpl; [eauto | discriminate]. Qed.

Lemma bind_raise {A B} (r : result A) (k : A -> result B) e :
  bind r k = Raise e -> r = Raise e \/ exists a, r = Ok a /\ k a = Raise e.
Proof. destruct r; simpl; [eauto | intros [= ->]; auto]. Qed.

(** ** The scenarios of the specification, evaluated *)

Example scenario_A :
  calculate_changed [("S.C.t1", 10%float)]%string [("S.C.t1", 11%float)]%string
  = Ok [("S.C.t1"%string, 10%float)]
  /\ run_check [("S.C.t1", 10%float)]%string [("S.C.t1", 11%float)]%string
       (PyNum.PyInt 10)
     = Ok tt.
Proof. split; reflexivity. Qed.

Example scenario_B :
  run_check [("S.C.t1", 10%float)]%string [("S.C.t1", 11.5%float)]%string
    (PyNum.PyInt 10)
  = Raise (ThresholdExceeded per_test_message [("S.C.t1"%string, 15%float)]).
Proof. reflexivity. Qed.

Example scenario_C :
  run_check [("S.C.t1", 5%float)]%string
    [("S.C.t1", 5%float); ("S.C.t2", 100%float)]%string (PyNum.PyInt 10)
  = Raise (ThresholdExceeded total_message [("S.C.t2"%string, 100%float)]).
Proof. reflexivity. Qed.

Example scenario_D :
  calculate_changed [("S.C.t1", 0%float)]%string [("S.C.t1", 5%float)]%string
  = Ok [("S.C.t1"%string, 0%float)]
  /\ over_threshold [("S.C.t1"%string, 0%float)] (PyNum.PyInt 10) = Ok []
  /\ run_check [("S.C.t1", 0%float)]%string [("S.C.t1", 5%float)]%string
       (PyNum.PyInt 10)
     = Raise ZeroDivisionError.
Proof. repeat split. Qed.

Example endswith_examples :
  endswith "TEST-a.xml" "xml" = true
  /\ endswith "xml" "xml" = true
  /\ endswith "ml" "xml" = false
  /\ endswith "report.xml.bak" "xml" = false.
Proof. repeat split. Qed.

Example float_against_int :
  PyNum.float_gt_int 10%float 10 = false
  /\ PyNum.float_gt_int 10.5%float 10 = true
  /\ PyNum.float_gt_int (-0.5)%float 0 = false
  /\ PyNum.float_gt_int nan 10 = false
  /\ PyNum.float_gt_int infinity 10 = true
  /\ PyNum.float_eq_int 10%float 10 = true.
Proof. repeat split. Qed.

(** ** The delta calculator *)

Lemma changed_step_ok base compare_to key changed b c :
  get key base = Some b -> get key compare_to = Some c ->
  changed_step base compare_to key changed
  = Ok (setitem key (percentage b c) changed).
Proof.
  intros Hb Hc. unfold changed_step, getitem, percentage, PyNum.truediv.
  rewrite Hb, Hc. simpl.
  destruct (PyNum.is_zero b); reflexivity.
Qed.

Lemma changed_loop base compare_to (l : list string) :
  (forall k, In k l -> In k (keys base) /\ In k (keys compare_to)) ->
  forall changed,
  exists r,
    for_each (changed_step base compare_to) l changed = Ok r
    /\ (forall k, get k r
                  = if PySet.mem k l then delta base compare_to k
                    else get k changed)
    /\ (NoDup (keys changed) -> NoDup (keys r)).
Proof.
  induction l as [|a l IH]; intros Hl changed; simpl.
  - exists changed. auto.
  - destruct (Hl a (or_introl eq_refl)) as [Ha Hc].
    apply get_in_keys in Ha. apply get_in_keys in Hc.
    destruct (get a base) as [b|] eqn:Eb; [|congruence].
    destruct (get a compare_to) as [c|] eqn:Ec; [|congruence].
    rewrite (changed_step_ok _ _ _ changed _ _ Eb Ec). simpl.
    destruct (IH (fun k H => Hl k (or_intror H))
                 (setitem a (percentage b c) changed)) as (r & Hr & Hget & Hnd).
    exists r. split; [exact Hr|]. split.
    + intros k. rewrite Hget.
      destruct (PySet.mem k l); simpl; [now rewrite orb_true_r|].
      rewrite orb_false_r, get_setitem.
      rewrite (String.eqb_sym k a).
      destruct (String.eqb a k) eqn:E; auto.
      apply String.eqb_eq in E. subst k.
      unfold delta. now rewrite Eb, Ec.
    + intros H. apply Hnd. now apply nodup_setitem.
Qed.

Lemma calculate_changed_get base compare_to :
  exists changed,
    calculate_changed base compare_to = Ok changed
    /\ (forall k, get k changed = delta base compare_to k)
    /\ NoDup (keys changed).
Proof.
  unfold calculate_changed.
  set (both := PySet.intersection _ _).
  assert (Hboth : forall k, In k both
                            <-> In k (keys base) /\ In k (keys compare_to)).
  { intros k. unfold both. now rewrite in_intersection, in_of_list. }
  destruct (changed_loop base compare_to both (fun k H => proj1 (Hboth k) H)
              empty) as (r & Hr & Hget & Hnd).
  exists r. split; [exact Hr|]. split.
  - intros k. rewrite Hget.
    destruct (PySet.mem k both) eqn:E; auto.
    apply mem_false in E. rewrite Hboth in E.
    unfold delta. simpl.
    destruct (get k base) eqn:Eb; auto.
    destruct (get k compare_to) eqn:Ec; auto.
    exfalso. apply E. rewrite !get_in_keys. split; congruence.
  - apply Hnd. constructor.
Qed.

(** C6.  For every key [k] that [base] and [compare_to] share, the delta
    calculator returns a mapping, and in it [delta[k]] is [0] when
    [base[k] == 0], whatever [compare_to[k]] is, and
    [(compare_to[k] - base[k]) / base[k] * 100] otherwise. *)
Theorem calculate_changed_value base compare_to k b c :
  get k base = Some b -> get k compare_to = Some c ->
  exists changed,
    calculate_changed base compare_to = Ok changed
    /\ get k changed
       = Some (if PyNum.is_zero b then 0%float
               else PrimFloat.mul (PrimFloat.div (PrimFloat.sub c b) b)
                      100%float).
Proof.
  intros Hb Hc.
  destruct (calculate_changed_get base compare_to) as (changed & Hr & Hget & _).
  exists changed. split; [exact Hr|].
  rewrite Hget. unfold delta. now rewrite Hb, Hc.
Qed.

(** A test whose base time is [0.0] and which took 5 s in the compared run is
    reported with a change of [0]. *)
Lemma calculate_changed_value_witness :
  exists changed,
    calculate_changed [("S.C.t0", 0%float); ("S.C.t1", 10%float)]%string
                      [("S.C.t1", 11.5%float); ("S.C.t0", 5%float)]%string
    = Ok changed
    /\ get "S.C.t0"%string changed = Some 0%float.
Proof.
  exact (calculate_changed_value
           [("S.C.t0", 0%float); ("S.C.t1", 10%float)]%string
           [("S.C.t1", 11.5%float); ("S.C.t0", 5%float)]%string
           "S.C.t0"%string 0%float 5%float eq_refl eq_refl).
Defined.

(** ** The threshold checks *)

Lemma setitem_fresh {V} k (v : V) d :
  ~ In k (keys d) -> setitem k v d = d ++ [(k, v)].
Proof.
  induction d as [|[k0 v0] d IH]; simpl; intros Hk; auto.
  destruct (String.eqb k0 k) eqn:E.
  - apply String.eqb_eq in E. subst. intuition.
  - rewrite IH; intuition.
Qed.

Lemma gt_numeric v thr :
  PyNum.is_number thr = true -> PyNum.gt v thr = Ok (exceeds thr v).
Proof. destruct thr; simpl; [reflexivity | discriminate]. Qed.

Lemma over_threshold_loop thr (l acc : dict float) :
  PyNum.is_number thr = true ->
  NoDup (keys (acc ++ l)) ->
  for_each
    (fun kv acc =>
       b <- PyNum.gt (snd kv) thr ;;
       Ok (if b then setitem (fst kv) (snd kv) acc else acc))
    l acc
  = Ok (acc ++ offending l thr).
Proof.
  intros Hnum. revert acc.
  induction l as [|[k v] l IH]; intros acc Hnd; simpl.
  - now rewrite app_nil_r.
  - rewrite (gt_numeric v thr Hnum). simpl.
    assert (Hk : ~ In k (keys acc)).
    { unfold keys in *. rewrite map_app in Hnd. simpl in Hnd.
      apply NoDup_remove_2 in Hnd. rewrite in_app_iff in Hnd. tauto. }
    assert (Hnd' : NoDup (keys ((acc ++ [(k, v)]) ++ l))).
    { now rewrite <- app_assoc. }
    destruct (exceeds thr v) eqn:E.
    + rewrite setitem_fresh by exact Hk.
      rewrite IH by exact Hnd'. now rewrite <- app_assoc.
    + apply IH. unfold keys in *. rewrite map_app in *. simpl in *.
      now apply NoDup_remove_1 in Hnd.
Qed.

Lemma over_threshold_numeric changed thr :
  PyNum.is_number thr = true -> NoDup (keys changed) ->
  over_threshold changed thr = Ok (offending changed thr).
Proof.
  intros Hnum Hnd. unfold over_threshold.
  now rewrite over_threshold_loop.
Qed.

Lemma get_offending changed thr k v :
  NoDup (keys changed) ->
  get k (offending changed thr) = Some v
  <-> get k changed = Some v /\ exceeds thr v = true.
Proof.
  intros Hnd. unfold offending. split.
  - intros H. apply get_some_in in H. apply filter_In in H.
    destruct H as [Hin Hex]. split; auto. now apply in_get_nodup.
  - intros [Hg Hex]. apply in_get_nodup.
    + unfold keys. clear -Hnd. induction changed as [|[k0 v0] d IH]; simpl.
      * constructor.
      * inversion Hnd as [|? ? Hnot Hnd']; subst.
        destruct (exceeds thr v0); simpl; auto.
        constructor; auto.
        intros Hin. apply Hnot. apply in_map_iff in Hin.
        destruct Hin as [x [Hx Hin]]. apply filter_In in Hin.
        apply in_map_iff. exists x. tauto.
    + apply filter_In. split; auto. now apply get_some_in.
Qed.

(** When no delta is over the threshold, the per-test selection is empty;
    the comparison is made for every item, so the threshold need only be
    comparable where there is an item. *)
Lemma over_threshold_none changed thr :
  (forall k v, In (k, v) changed -> PyNum.gt v thr = Ok false) ->
  over_threshold changed thr = Ok [].
Proof.
  intros H. unfold over_threshold.
  enough (Hacc : forall acc : dict float,
             for_each
               (fun kv acc =>
                  b <- PyNum.gt (snd kv) thr ;;
                  Ok (if b then setitem (fst kv) (snd kv) acc else acc))
               changed acc = Ok acc) by apply Hacc.
  induction changed as [|[k v] l IH]; intros acc; simpl; auto.
  rewrite (H k v (or_introl eq_refl)). simpl.
  apply IH. intros k' v' Hin. apply (H k' v'). now right.
Qed.

Lemma added_time_loop compare_to (l : list string) :
  (forall k, In k l -> In k (keys compare_to)) ->
  forall acc,
  exists r,
    for_each
      (fun k acc => v <- getitem compare_to k ;; Ok (setitem k v acc)) l acc
    = Ok r
    /\ forall k, get k r
                 = if PySet.mem k l then get k compare_to else get k acc.
Proof.
  induction l as [|a l IH]; intros Hl acc; simpl.
  - exists acc. auto.
  - pose proof (Hl a (or_introl eq_refl)) as Ha.
    apply get_in_keys in Ha. unfold getitem at 1.
    destruct (get a compare_to) as [c|] eqn:Ec; [|congruence]. simpl.
    destruct (IH (fun k H => Hl k (or_intror H)) (setitem a c acc))
      as (r & Hr & Hget).
    exists r. split; [exact Hr|].
    intros k. rewrite Hget.
    destruct (PySet.mem k l); simpl; [now rewrite orb_true_r|].
    rewrite orb_false_r, get_setitem, (String.eqb_sym k a).
    destruct (String.eqb a k) eqn:E; auto.
    apply String.eqb_eq in E. now subst k.
Qed.

(** The payload of the total check: the tests only the compared run has,
    with their durations there. *)
Lemma added_time_additive (base compare_to : dict float) :
  exists added,
    added_time compare_to
      (PySet.difference (PySet.of_list (keys compare_to)) (keys base))
    = Ok added
    /\ forall k v, get k added = Some v
                   <-> get k compare_to = Some v /\ get k base = None.
Proof.
  set (additive := PySet.difference _ _).
  assert (Hadd : forall k, In k additive
                           <-> In k (keys compare_to) /\ ~ In k (keys base)).
  { intros k. unfold additive. now rewrite in_difference, in_of_list. }
  destruct (added_time_loop compare_to additive
              (fun k H => proj1 (proj1 (Hadd k) H)) empty) as (r & Hr & Hget).
  exists r. split; [exact Hr|].
  intros k v. rewrite Hget. rewrite (get_none_not_in _ k base).
  destruct (PySet.mem k additive) eqn:E.
  - apply mem_In in E. apply Hadd in E. tauto.
  - apply mem_false in E. rewrite Hadd in E. simpl. split; [discriminate|].
    intros [Hc Hb]. exfalso. apply E. split; auto.
    apply get_in_keys. congruence.
Qed.

Lemma messages_differ : per_test_message <> total_message.
Proof. discriminate. Qed.

Lemma float_eq_not_gt v z :
  PyNum.float_eq_int v z = true -> PyNum.float_gt_int v z = false.
Proof.
  unfold PyNum.float_eq_int, PyNum.float_gt_int.
  destruct (PyNum.float_compare_int v z) as [[| |]|]; auto; discriminate.
Qed.

(** C3.  For a numeric threshold, the per-test check raises
    [ThresholdExceeded] exactly when some key of the delta mapping has a
    value strictly greater than the threshold.  The payload then holds every
    offending key with its percentage delta and nothing else, and the outcome
    does not depend on [base] and [compare_to]: the check of the total is not
    evaluated.  A delta equal to the threshold is not an offending one. *)
Theorem per_test_check changed base compare_to thr :
  PyNum.is_number thr = true ->
  NoDup (keys changed) ->
  ((exists k v, get k changed = Some v /\ PyNum.gt v thr = Ok true)
   <-> exists payload,
         check changed base compare_to thr
         = Raise (ThresholdExceeded per_test_message payload))
  /\ (forall payload,
        check changed base compare_to thr
        = Raise (ThresholdExceeded per_test_message payload) ->
        payload = offending changed thr
        /\ (forall k v, get k payload = Some v
                        <-> get k changed = Some v /\ PyNum.gt v thr = Ok true)
        /\ forall base' compare_to',
             check changed base' compare_to' thr
             = Raise (ThresholdExceeded per_test_message payload))
  /\ (forall k v, get k changed = Some v -> PyNum.eq v thr = true ->
                  PyNum.gt v thr = Ok false).
Proof.
  intros Hnum Hnd.
  assert (Hover := over_threshold_numeric changed thr Hnum Hnd).
  assert (Hex : forall v, PyNum.gt v thr = Ok true <-> exceeds thr v = true).
  { intros v. rewrite (gt_numeric v thr Hnum). split; congruence. }
  assert (Hfire : forall b c,
             truthy (offending changed thr) = true ->
             check changed b c thr
             = Raise (ThresholdExceeded per_test_message (offending changed thr))).
  { intros b c Ht. unfold check. rewrite Hover. simpl. now rewrite Ht. }
  assert (Hquiet : forall b c payload,
             truthy (offending changed thr) = false ->
             check changed b c thr
             <> Raise (ThresholdExceeded per_test_message payload)).
  { intros b c payload Ht. unfold check. rewrite Hover. simpl. rewrite Ht.
    destruct (total_percentage_changed b c) as [t|e] eqn:Et; simpl.
    - rewrite (gt_numeric t thr Hnum). simpl.
      destruct (exceeds thr t); [|discriminate].
      destruct (added_time_additive b c) as (added & -> & _). simpl.
      intros Heq. apply messages_differ. congruence.
    - unfold total_percentage_changed, PyNum.truediv in Et.
      destruct (PyNum.is_zero _); simpl in Et; congruence. }
  split; [split|split].
  - intros (k & v & Hg & Hgt). exists (offending changed thr).
    apply Hfire.
    assert (Hin : get k (offending changed thr) = Some v).
    { apply get_offending; auto. split; auto. now apply Hex. }
    destruct (offending changed thr); [discriminate | reflexivity].
  - intros [payload Hp].
    destruct (truthy (offending changed thr)) eqn:Ht.
    + destruct (offending changed thr) as [|[k v] rest] eqn:Eo; [discriminate|].
      exists k, v.
      assert (Hg : get k (offending changed thr) = Some v).
      { rewrite Eo. simpl. now rewrite String.eqb_refl. }
      apply get_offending in Hg; auto. rewrite Hex. exact Hg.
    + exfalso. exact (Hquiet base compare_to payload eq_refl Hp).
  - intros payload Hp.
    destruct (truthy (offending changed thr)) eqn:Ht.
    + rewrite (Hfire base compare_to eq_refl) in Hp. injection Hp as <-.
      split; [reflexivity|]. split.
      * intros k v. rewrite Hex. now apply get_offending.
      * intros b c. exact (Hfire b c eq_refl).
    + exfalso. exact (Hquiet base compare_to payload eq_refl Hp).
  - intros k v _ Heq. rewrite (gt_numeric v thr Hnum). f_equal.
    destruct thr as [z|s]; [|discriminate]. simpl in *.
    now apply float_eq_not_gt.
Qed.

(** Scenario B: a test that went from 10 s to 11.5 s is 15% slower, over the
    default threshold of 10; the payload is that one test. *)
Lemma per_test_check_witness :
  PyNum.is_number (PyNum.PyInt 10) = true
  /\ NoDup (keys [("S.C.t1"%string, 15%float)])
  /\ check [("S.C.t1"%string, 15%float)] [] [] (PyNum.PyInt 10)
     = Raise (ThresholdExceeded per_test_message [("S.C.t1"%string, 15%float)]).
Proof.
  assert (Hnd : NoDup (keys [("S.C.t1"%string, 15%float)])).
  { repeat constructor. simpl. tauto. }
  split; [reflexivity|]. split; [exact Hnd|].
  destruct (per_test_check [("S.C.t1"%string, 15%float)] [] []
              (PyNum.PyInt 10) eq_refl Hnd) as [[Hfire _] [Hpay _]].
  destruct Hfire as [payload Hp].
  - exists "S.C.t1"%string, 15%float. split; reflexivity.
  - rewrite Hp. destruct (Hpay payload Hp) as [-> _]. reflexivity.
Defined.

(** C4.  When no delta is over the threshold and the base total is not zero,
    the check of the total computes
    [(total_compare - total_base) / total_base * 100] over the sums of the
    durations of the two runs and raises [ThresholdExceeded] exactly when
    that value is strictly greater than the threshold.  The payload maps
    exactly the additive tests (keys of [compare_to] that [base] lacks) to
    their durations in [compare_to]; when the value is not over the
    threshold the run returns normally. *)
Theorem total_check changed base compare_to thr :
  PyNum.is_number thr = true ->
  (forall k v, In (k, v) changed -> PyNum.gt v thr = Ok false) ->
  PyNum.is_zero (PyNum.sum (values base)) = false ->
  let total :=
    PrimFloat.mul
      (PrimFloat.div
         (PrimFloat.sub (PyNum.sum (values compare_to)) (PyNum.sum (values base)))
         (PyNum.sum (values base)))
      100%float in
  total_percentage_changed base compare_to = Ok total
  /\ (PyNum.gt total thr = Ok true ->
      exists payload,
        check changed base compare_to thr
        = Raise (ThresholdExceeded total_message payload)
        /\ forall k v, get k payload = Some v
                       <-> get k compare_to = Some v /\ get k base = None)
  /\ (PyNum.gt total thr = Ok false ->
      check changed base compare_to thr = Ok tt)
  /\ ((exists msg payload,
         check changed base compare_to thr
         = Raise (ThresholdExceeded msg payload))
      <-> PyNum.gt total thr = Ok true).
Proof.
  intros Hnum Hpass Hz total.
  assert (Htot : total_percentage_changed base compare_to = Ok total).
  { unfold total_percentage_changed, PyNum.truediv. now rewrite Hz. }
  assert (Hchk : check changed base compare_to thr
                 = (b <- PyNum.gt total thr ;;
                    if b then
                      added <- added_time compare_to
                                 (PySet.difference
                                    (PySet.of_list (keys compare_to))
                                    (keys base)) ;;
                      Raise (ThresholdExceeded total_message added)
                    else Ok tt)).
  { unfold check. rewrite (over_threshold_none changed thr Hpass). simpl.
    now rewrite Htot. }
  destruct (added_time_additive base compare_to) as (added & Hadd & Hget).
  split; [exact Htot|]. split; [|split].
  - intros Hgt. exists added. rewrite Hchk, Hgt. simpl. rewrite Hadd.
    split; [reflexivity | exact Hget].
  - intros Hgt. rewrite Hchk, Hgt. reflexivity.
  - rewrite Hchk, (gt_numeric total thr Hnum). simpl.
    destruct (exceeds thr total); simpl.
    + rewrite Hadd. simpl. split; [reflexivity|]. intros _. eauto.
    + split; [intros (msg & payload & H); discriminate | discriminate].
Qed.

(** Scenario C: one unchanged test and one new test of 100 s; the total went
    from 5 s to 105 s, and the payload is the new test. *)
Lemma total_check_witness :
  check [("S.C.t1"%string, 0%float)]
        [("S.C.t1"%string, 5%float)]
        [("S.C.t1"%string, 5%float); ("S.C.t2"%string, 100%float)]
        (PyNum.PyInt 10)
  = Raise (ThresholdExceeded total_message [("S.C.t2"%string, 100%float)])
  /\ exists payload,
       check [("S.C.t1"%string, 0%float)]
             [("S.C.t1"%string, 5%float)]
             [("S.C.t1"%string, 5%float); ("S.C.t2"%string, 100%float)]
             (PyNum.PyInt 10)
       = Raise (ThresholdExceeded total_message payload)
       /\ get "S.C.t2"%string payload = Some 100%float.
Proof.
  split; [reflexivity|].
  assert (Hpass : forall k v,
             In (k, v) [("S.C.t1"%string, 0%float)] ->
             PyNum.gt v (PyNum.PyInt 10) = Ok false).
  { intros k v [[= <- <-]|[]]. reflexivity. }
  destruct (total_check [("S.C.t1"%string, 0%float)]
              [("S.C.t1"%string, 5%float)]
              [("S.C.t1"%string, 5%float); ("S.C.t2"%string, 100%float)]
              (PyNum.PyInt 10) eq_refl Hpass eq_refl)
    as (_ & Hfire & _).
  destruct (Hfire eq_refl) as (payload & Hp & Hget).
  exists payload. split; [exact Hp|].
  apply Hget. split; reflexivity.
Defined.

(** C8.  When no delta is over the threshold and the durations of the base
    run sum to zero, the total check divides by zero: the run ends with
    [ZeroDivisionError], whatever the compared run and the threshold are. *)
Theorem total_check_zero_base changed base compare_to thr :
  (forall k v, In (k, v) changed -> PyNum.gt v thr = Ok false) ->
  PyNum.is_zero (PyNum.sum (values base)) = true ->
  check changed base compare_to thr = Raise ZeroDivisionError.
Proof.
  intros Hpass Hz. unfold check.
  rewrite (over_threshold_none changed thr Hpass). simpl.
  unfold total_percentage_changed, PyNum.truediv. now rewrite Hz.
Qed.

(** Scenario D: the only test took 0 s in the base run; its delta is 0 by the
    zero guard, and the total check then divides by the base total 0. *)
Lemma total_check_zero_base_witness :
  check [("S.C.t1"%string, 0%float)]
        [("S.C.t1"%string, 0%float)]
        [("S.C.t1"%string, 5%float)]
        (PyNum.PyInt 10)
  = Raise ZeroDivisionError.
Proof.
  apply total_check_zero_base; [|reflexivity].
  intros k v [[= <- <-]|[]]. reflexivity.
Defined.

(** ** Flattening *)

Lemma convert_unfold n its :
  convert_junit_to_dict (Container n its)
  = fold_left (convert_step n) its empty.
Proof. reflexivity. Qed.

Lemma last_write_none {V} k (l : list (string * V)) :
  last_write k l = None <-> ~ In k (map fst l).
Proof.
  induction l as [|[k0 v0] l IH]; simpl.
  - unfold last_write. simpl. tauto.
  - rewrite last_write_cons.
    destruct (last_write k l) eqn:E.
    + split; [discriminate|]. intros H. exfalso.
      assert (Hn : Some v <> None) by discriminate.
      apply Hn. apply IH. tauto.
    + destruct (String.eqb k0 k) eqn:E0.
      * apply String.eqb_eq in E0. subst. split; [discriminate | tauto].
      * apply String.eqb_neq in E0. split; [|reflexivity].
        intros _ [H|H]; [congruence | now apply IH].
Qed.

Lemma convert_loop n (its : list item) :
  Forall (holds_below
            (fun s => NoDup (keys (convert_junit_to_dict s))
                      /\ forall k, get k (convert_junit_to_dict s)
                                   = last_write k (records s))) its ->
  forall acc,
    (NoDup (keys acc) -> NoDup (keys (fold_left (convert_step n) its acc)))
    /\ forall k,
         get k (fold_left (convert_step n) its acc)
         = match last_write k (records (Container n its)) with
           | Some v => Some v
           | None => get k acc
           end.
Proof.
  induction 1 as [|it its Hit Hall IH]; intros acc; simpl.
  - split; auto.
  - destruct (IH (convert_step n acc it)) as [Hnd Hget]. split.
    + intros Hacc. apply Hnd. destruct it as [s|c nm t]; simpl in *.
      * now apply nodup_update.
      * now apply nodup_setitem.
    + intros k. rewrite Hget. simpl in *. rewrite last_write_app.
      destruct (last_write k (flat_map _ its)); auto.
      destruct it as [s|c nm t]; simpl in *.
      * destruct Hit as [Hs Hgs].
        rewrite get_update, <- Hgs, last_write_nodup by exact Hs.
        reflexivity.
      * rewrite get_setitem. unfold last_write. simpl.
        now destruct (String.eqb (test_key n c nm) k).
Qed.

Lemma convert_records xml :
  NoDup (keys (convert_junit_to_dict xml))
  /\ forall k, get k (convert_junit_to_dict xml) = last_write k (records xml).
Proof.
  induction xml as [n its Hall] using container_induction.
  rewrite convert_unfold.
  destruct (convert_loop n its Hall empty) as [Hnd Hget]. split.
  - apply Hnd. constructor.
  - intros k. rewrite Hget. now destruct (last_write k _).
Qed.

Lemma records_leaf xml k t :
  In (k, t) (records xml)
  <-> exists p c nm, leaf_in xml p c nm t /\ k = test_key p c nm.
Proof.
  split.
  - induction xml as [n its Hall] using container_induction.
    simpl. rewrite in_flat_map. intros [it [Hin Hrec]].
    rewrite Forall_forall in Hall. specialize (Hall it Hin).
    destruct it as [s|c nm t0]; simpl in *.
    + destruct (Hall Hrec) as (p & c & nm & Hleaf & ->).
      exists p, c, nm. split; auto. eapply leaf_below; eauto.
    + destruct Hrec as [[= <- <-]|[]].
      exists n, c, nm. split; auto. now apply leaf_here.
  - intros (p & c & nm & Hleaf & ->).
    induction Hleaf as [n its c nm t Hin | n its s p c nm t Hin Hleaf IH];
      simpl; rewrite in_flat_map.
    + exists (Case c nm t). split; auto. simpl. now left.
    + exists (Suite s). split; auto.
Qed.

(** Merging a report file whose root is one suite appends the records of
    that file to those of the accumulated report. *)
Lemma records_iadd_suite xml other :
  records (iadd xml (RootSuite other)) = records xml ++ records other.
Proof.
  destruct xml as [n its]. simpl. rewrite flat_map_app. simpl.
  now rewrite app_nil_r.
Qed.

Lemma records_iadd its p :
  records (iadd (Container None its) p)
  = records (Container None its) ++ parsed_records p.
Proof.
  destruct p as [o|o]; simpl; rewrite flat_map_app; simpl.
  - reflexivity.
  - now rewrite app_nil_r.
Qed.

Lemma iadd_keeps_name its p :
  exists its', iadd (Container None its) p = Container None its'.
Proof. destruct p; simpl; eauto. Qed.

Lemma records_fold_iadd ps :
  forall its,
  exists its',
    fold_left iadd ps (Container None its) = Container None its'
    /\ records (Container None its')
       = records (Container None its) ++ flat_map parsed_records ps.
Proof.
  induction ps as [|p ps IH]; intros its; cbn [fold_left flat_map].
  - exists its. now rewrite app_nil_r.
  - destruct (iadd_keeps_name its p) as [its1 H1].
    destruct (IH its1) as (its' & Hf & Hr).
    exists its'. rewrite H1. split; [exact Hf|].
    rewrite Hr, <- H1, records_iadd. now rewrite app_assoc.
Qed.

(** The inner loop merges the files it selects, in their order. *)
Lemma merge_files_parsed files ps :
  Forall2 (fun f p => fromfile (snd f) = Ok p) (selected files) ps ->
  forall ret_xml, merge_files files ret_xml = Ok (fold_left iadd ps ret_xml).
Proof.
  unfold merge_files. fold (selected files).
  induction 1 as [|f p fs ps Hf Hall IH]; intros ret_xml; simpl; auto.
  rewrite Hf. simpl. apply IH.
Qed.

(** So does the walk, directory after directory. *)
Lemma walk_parsed w :
  forall ps,
    Forall2 (fun f p => fromfile (snd f) = Ok p) (flat_map selected w) ps ->
    forall ret_xml,
      for_each merge_files w ret_xml = Ok (fold_left iadd ps ret_xml).
Proof.
  induction w as [|files w IH]; intros ps H ret_xml; simpl in *.
  - inversion H. reflexivity.
  - apply Forall2_app_inv_l in H. destruct H as (ps1 & ps2 & H1 & H2 & ->).
    rewrite (merge_files_parsed files ps1 H1). simpl.
    rewrite (IH ps2 H2). now rewrite fold_left_app.
Qed.

(** C10.  Whenever merging and flattening produce the same key more than
    once, the Report Set holds the duration met last.  For every report the
    value under a key is that of the last record of the traversal with that
    key; and for a directory whose selected files parse, the loader returns
    a Report Set in which the value under a key is that of the last record
    with that key among the records of the files, taken file after file in
    the order of the walk: a later file overwrites an earlier one. *)
Theorem last_write_wins :
  (forall xml k,
     get k (convert_junit_to_dict xml) = last_write k (records xml))
  /\ (forall xml k t1 t2 before between after,
        records xml = before ++ [(k, t1)] ++ between ++ [(k, t2)] ++ after ->
        ~ In k (map fst after) ->
        get k (convert_junit_to_dict xml) = Some t2)
  /\ (forall (fs : filesystem) path entries ps,
        fs path = Some (Dir entries) ->
        Forall2 (fun f p => fromfile (snd f) = Ok p)
          (flat_map selected (os_walk (Dir entries))) ps ->
        exists reports,
          parse_junit_reports fs path = Ok reports
          /\ forall k,
               get k reports = last_write k (flat_map parsed_records ps)).
Proof.
  split; [|split].
  - intros xml k. apply convert_records.
  - intros xml k t1 t2 before between after Hrec Hafter.
    destruct (convert_records xml) as [_ ->]. rewrite Hrec.
    rewrite !last_write_app.
    apply last_write_none in Hafter. rewrite Hafter.
    unfold last_write at 1. simpl. now rewrite String.eqb_refl.
  - intros fs path entries ps Hd Hps.
    unfold parse_junit_reports. rewrite Hd.
    rewrite (walk_parsed _ ps Hps). simpl.
    destruct (records_fold_iadd ps []) as (its' & -> & Hr).
    eexists. split; [reflexivity|].
    intros k. destruct (convert_records (Container None its')) as [_ ->].
    now rewrite Hr.
Qed.

(** Two files with the same test: the one met later in the walk wins. *)
Example later_file_wins :
  parse_junit_reports
    (single_path "runs"
       (Dir [("a.xml"%string, one_case_file "S" "t" 1%float);
             ("b.xml"%string, one_case_file "S" "t" 2%float)]))
    "runs"
  = Ok [("S.C.t"%string, 2%float)].
Proof. reflexivity. Qed.

(** C1, as stated, fails: the test case of a nested suite is keyed with the
    name of that suite, and no key carries the name of the root. *)
Lemma convert_keys_counterexample :
  leaf_in nested_report (Some "S"%string) (Some "C"%string) (Some "t"%string)
    1%float
  /\ convert_junit_to_dict nested_report = [("S.C.t"%string, 1%float)]
  /\ ~ (forall p c nm t,
          leaf_in nested_report p c nm t ->
          In (test_key (container_name nested_report) c nm)
             (keys (convert_junit_to_dict nested_report))).
Proof.
  assert (Hleaf : leaf_in nested_report (Some "S"%string) (Some "C"%string)
                    (Some "t"%string) 1%float).
  { eapply leaf_below; [left; reflexivity|].
    apply leaf_here. left. reflexivity. }
  split; [exact Hleaf|]. split; [reflexivity|].
  intros H. specialize (H _ _ _ _ Hleaf). simpl in H.
  destruct H as [H|[]]. discriminate.
Qed.

(** C1, amended.  The keys of the flattened mapping are exactly the keys of
    the test cases of the tree, and the key of a test case is the name of
    the container that holds it directly, then its class name, then its test
    name, joined by dots.  The name of the root is the prefix of the test
    cases the root holds itself; a test case of a nested suite carries the
    name of that suite. *)
Theorem convert_keys xml k :
  In k (keys (convert_junit_to_dict xml))
  <-> exists p c nm t,
        leaf_in xml p c nm t
        /\ k = (fmt p ++ "." ++ fmt c ++ "." ++ fmt nm)%string.
Proof.
  rewrite get_in_keys.
  destruct (convert_records xml) as [_ ->].
  split.
  - intros H.
    assert (Hin : In k (map fst (records xml))).
    { destruct (in_dec string_dec k (map fst (records xml))); auto.
      exfalso. apply H. now apply last_write_none. }
    apply in_map_iff in Hin. destruct Hin as [[k0 t] [Hk Hin]].
    simpl in Hk. subst k0.
    apply records_leaf in Hin. destruct Hin as (p & c & nm & Hleaf & ->).
    exists p, c, nm, t. auto.
  - intros (p & c & nm & t & Hleaf & ->) Hnone.
    apply last_write_none in Hnone. apply Hnone.
    apply in_map_iff. exists (test_key p c nm, t). split; auto.
    apply records_leaf. eauto.
Qed.

(** ** The report loader *)

Lemma for_each_raise {A S} (body : A -> S -> result S) l s e :
  for_each body l s = Raise e ->
  exists a s', In a l /\ body a s' = Raise e.
Proof.
  revert s. induction l as [|a l IH]; intros s; simpl; [discriminate|].
  destruct (body a s) as [s'|e'] eqn:E; simpl.
  - intros H. destruct (IH s' H) as (a' & s'' & Hin & Hb). eauto.
  - intros [= ->]. eauto.
Qed.

Lemma fromfile_raise n e :
  fromfile n = Raise e -> e = JUnitXmlError \/ e = OSError.
Proof.
  destruct n as [[p|]|entries|]; simpl; intros [= <-]; auto.
Qed.

Lemma merge_files_raise files ret_xml e :
  merge_files files ret_xml = Raise e -> e = JUnitXmlError \/ e = OSError.
Proof.
  intros H. apply for_each_raise in H. destruct H as (f & s & _ & H).
  destruct (fromfile (snd f)) eqn:E; simpl in H; [discriminate|].
  injection H as ->. eapply fromfile_raise; eauto.
Qed.

(** On a path that exists the loader can fail, but only while parsing. *)
Lemma parse_existing_raise fs path n e :
  fs path = Some n ->
  parse_junit_reports fs path = Raise e ->
  e = JUnitXmlError \/ e = OSError \/ e = UnboundLocalError "ret_xml".
Proof.
  intros Hn. unfold parse_junit_reports. rewrite Hn.
  destruct n as [c|entries|].
  - destruct (fromfile (File c)) eqn:E; simpl; [discriminate|].
    intros [= ->]. apply fromfile_raise in E. tauto.
  - destruct (for_each merge_files _ _) eqn:E; simpl; [discriminate|].
    intros [= ->]. apply for_each_raise in E.
    destruct E as (files & s & _ & E). apply merge_files_raise in E. tauto.
  - intros [= <-]. auto.
Qed.

(** C9.  The loader fails with [FileNotFoundError] exactly on a path that
    does not exist; the message is ["Path '<path>', not found"], which
    carries the path; and [main] does not recover the error: it ends with it
    when the base path is missing, and when the base reports load and the
    path to compare is missing. *)
Theorem not_found_error (fs : filesystem) :
  (forall path,
     fs path = None
     <-> exists msg, parse_junit_reports fs path = Raise (FileNotFoundError msg))
  /\ (forall path,
        fs path = None ->
        parse_junit_reports fs path
        = Raise (FileNotFoundError ("Path '" ++ path ++ "', not found")))
  /\ (forall argv,
        fs (arg_base argv) = None ->
        main fs argv
        = Raise (FileNotFoundError
                   ("Path '" ++ arg_base argv ++ "', not found")))
  /\ (forall argv reports,
        parse_junit_reports fs (arg_base argv) = Ok reports ->
        fs (arg_compare_to argv) = None ->
        main fs argv
        = Raise (FileNotFoundError
                   ("Path '" ++ arg_compare_to argv ++ "', not found"))).
Proof.
  assert (Hnone : forall path,
             fs path = None ->
             parse_junit_reports fs path
             = Raise (FileNotFoundError ("Path '" ++ path ++ "', not found"))).
  { intros path H. unfold parse_junit_reports. now rewrite H. }
  split; [|split; [exact Hnone | split]].
  - intros path. split.
    + intros H. eexists. now apply Hnone.
    + intros [msg H]. destruct (fs path) as [n|] eqn:E; auto.
      destruct (parse_existing_raise fs path n _ E H) as [H'|[H'|H']];
        discriminate.
  - intros argv H. unfold main. simpl. now rewrite (Hnone _ H).
  - intros argv reports Hb Hc. unfold main. simpl.
    rewrite Hb. simpl. now rewrite (Hnone _ Hc).
Qed.

(** A file whose name does not end in ["xml"] is passed over. *)
Lemma merge_files_skip name n files ret_xml :
  endswith name "xml" = false ->
  merge_files ((name, n) :: files) ret_xml = merge_files files ret_xml.
Proof.
  intros H. unfold merge_files. simpl. now rewrite H.
Qed.


(** C5, on the code.  The filter is [f.endswith("xml")], without the dot:
    the file [resultsxml], whose name does not end in [".xml"], is parsed and
    contributes its record, and when it is not a report the loader fails on
    it.  The file [notes.txt] is passed over in both cases. *)
Theorem xml_suffix_without_dot :
  endswith "resultsxml" ".xml" = false
  /\ endswith "resultsxml" "xml" = true
  /\ endswith "notes.txt" "xml" = false
  /\ parse_junit_reports (single_path "reports" reports_dir) "reports"
     = Ok [("A.C.t1"%string, 1%float); ("B.C.t2"%string, 2%float)]
  /\ parse_junit_reports (single_path "reports" broken_dir) "reports"
     = Raise JUnitXmlError.
Proof.
  split; [reflexivity|]. split; [reflexivity|]. split; [reflexivity|].
  split; vm_compute; reflexivity.
Qed.

(** ** The command line *)

(** C2, on the code.  [parse_args] stores a threshold given on the command
    line as the [str] it is, never as a number.  The run of Scenario A passes
    with the default threshold, and ends with [TypeError] at the comparison
    [v > options.threshold] when the same threshold is given as [-t 10]. *)
Theorem cli_threshold_is_str :
  (forall b c s,
     threshold (parse_args {| arg_base := b; arg_compare_to := c;
                              arg_threshold := Some s |})
     = PyNum.PyStr s)
  /\ (forall v s, PyNum.gt v (PyNum.PyStr s) = Raise TypeError)
  /\ main two_runs {| arg_base := "base.xml"; arg_compare_to := "new.xml";
                      arg_threshold := None |}
     = Ok tt
  /\ main two_runs {| arg_base := "base.xml"; arg_compare_to := "new.xml";
                      arg_threshold := Some "10"%string |}
     = Raise TypeError.
Proof.
  split; [intros b c s; reflexivity|].
  split; [intros v s; reflexivity|].
  split; vm_compute; reflexivity.
Qed.

Lemma deref_old h d l : allocated h l -> deref (h ++ [d]) l = deref h l.
Proof. intros H. unfold deref. now rewrite app_nth1. Qed.

Lemma deref_new h d : deref (h ++ [d]) (List.length h) = d.
Proof. unfold deref. now rewrite nth_middle. Qed.

Lemma store_new h d d' : store (List.length h) d' (h ++ [d]) = h ++ [d'].
Proof. induction h as [|x h IH]; simpl; [reflexivity | now rewrite IH]. Qed.

Lemma changed_step_in_new base compare_to key h d :
  allocated h base -> allocated h compare_to ->
  changed_step_in base compare_to (List.length h) key (h ++ [d])
  = (d' <- changed_step (deref h base) (deref h compare_to) key d ;;
     Ok (h ++ [d'])).
Proof.
  intros Hb Hc. unfold changed_step_in, changed_step.
  rewrite (deref_old h d base Hb).
  destruct (getitem (deref h base) key) as [b|]; simpl; auto.
  rewrite (deref_old h d compare_to Hc), deref_new.
  destruct (PyNum.is_zero b) eqn:Ez; simpl.
  - now rewrite store_new.
  - destruct (getitem (deref h compare_to) key) as [c|]; simpl; auto.
    unfold PyNum.truediv. rewrite Ez. simpl. now rewrite store_new.
Qed.

Lemma changed_loop_in base compare_to (l : list string) h :
  allocated h base -> allocated h compare_to ->
  forall d,
    for_each (changed_step_in base compare_to (List.length h)) l (h ++ [d])
    = (d' <- for_each (changed_step (deref h base) (deref h compare_to)) l d ;;
       Ok (h ++ [d'])).
Proof.
  intros Hb Hc. induction l as [|key l IH]; intros d; simpl; auto.
  rewrite changed_step_in_new by assumption.
  destruct (changed_step (deref h base) (deref h compare_to) key d); simpl;
    auto.
Qed.

(** C7.  Called with references to two Report Sets, the delta calculator
    returns a reference to a new dict whose keys are exactly the keys the
    two have in common, and it leaves every object that existed before the
    call, the two Report Sets among them, as it was. *)
Theorem calculate_changed_keys base compare_to h :
  allocated h base -> allocated h compare_to ->
  exists changed h',
    calculate_changed_in base compare_to h = Ok (changed, h')
    /\ ~ allocated h changed
    /\ (forall l, allocated h l -> deref h' l = deref h l)
    /\ (forall k, In k (keys (deref h' changed))
                  <-> In k (keys (deref h base))
                      /\ In k (keys (deref h compare_to)))
    /\ NoDup (keys (deref h' changed))
    /\ calculate_changed (deref h base) (deref h compare_to)
       = Ok (deref h' changed).
Proof.
  intros Hb Hc.
  destruct (calculate_changed_get (deref h base) (deref h compare_to))
    as (d & Hd & Hget & Hnd).
  exists (List.length h), (h ++ [d]).
  split; [|split; [|split; [|split; [|split]]]].
  - unfold calculate_changed_in, alloc.
    rewrite changed_loop_in by assumption.
    unfold calculate_changed in Hd. unfold empty in *. now rewrite Hd.
  - unfold allocated. lia.
  - intros l Hl. now apply deref_old.
  - intros k. rewrite deref_new, !get_in_keys, Hget. unfold delta.
    destruct (get k (deref h base)); destruct (get k (deref h compare_to));
      intuition congruence.
  - now rewrite deref_new.
  - now rewrite deref_new.
Qed.

(** Two runs that share the test [b]: the new dict has [b] alone. *)
Lemma calculate_changed_keys_witness :
  exists changed h',
    calculate_changed_in 0 1
      [[("a"%string, 1%float); ("b"%string, 2%float)];
       [("b"%string, 3%float); ("c"%string, 4%float)]]
    = Ok (changed, h')
    /\ deref h' 0 = [("a"%string, 1%float); ("b"%string, 2%float)]
    /\ deref h' 1 = [("b"%string, 3%float); ("c"%string, 4%float)]
    /\ (In "b"%string (keys (deref h' changed)))
    /\ ~ In "a"%string (keys (deref h' changed)).
Proof.
  destruct (calculate_changed_keys 0 1
              [[("a"%string, 1%float); ("b"%string, 2%float)];
               [("b"%string, 3%float); ("c"%string, 4%float)]])
    as (changed & h' & Hr & _ & Hold & Hkeys & _).
  - unfold allocated. simpl. lia.
  - unfold allocated. simpl. lia.
  - exists changed, h'. split; [exact Hr|].
    split; [apply Hold; unfold allocated; simpl; lia|].
    split; [apply Hold; unfold allocated; simpl; lia|].
    split.
    + apply Hkeys. simpl. tauto.
    + intros Ha. apply Hkeys in Ha. simpl in Ha.
      destruct Ha as [_ [H|[H|[]]]]; discriminate.
Defined.

(** * Further properties of the script *)

(** ** The file name filter *)








(** ** The directory branch of the loader *)

Lemma for_each_ok {A S} (body : A -> S -> result S) l :
  (forall a s, In a l -> exists s', body a s = Ok s') ->
  forall s, exists r, for_each body l s = Ok r.
Proof.
  induction l as [|a l IH]; intros H s; simpl; [eauto|].
  destruct (H a s (or_introl eq_refl)) as [s' ->]. simpl.
  apply IH. intros a' s0 Hin. apply H. now right.
Qed.

Lemma selected_idempotent files : selected (selected files) = selected files.
Proof.
  unfold selected. induction files as [|f files IH]; simpl; auto.
  destruct (endswith (fst f) "xml") eqn:E; simpl; [rewrite E|]; now rewrite ?IH.
Qed.

Lemma merge_files_selected files ret_xml :
  merge_files (selected files) ret_xml = merge_files files ret_xml.
Proof.
  unfold merge_files. fold (selected (selected files)) (selected files).
  now rewrite selected_idempotent.
Qed.

(** What the loader makes of a directory depends only on the selected files
    of the walk, in their order. *)
Lemma walk_selected w1 :
  forall w2 ret_xml,
    map selected w1 = map selected w2 ->
    for_each merge_files w1 ret_xml = for_each merge_files w2 ret_xml.
Proof.
  induction w1 as [|f1 w1 IH]; intros [|f2 w2] ret_xml H; simpl in *;
    try discriminate; auto.
  injection H as Hf Hw.
  rewrite <- (merge_files_selected f1), <- (merge_files_selected f2), Hf.
  destruct (merge_files (selected f2) ret_xml); simpl; auto.
Qed.

Lemma os_walk_dir entries :
  os_walk (Dir entries)
  = filter (fun e => negb (is_dir (snd e))) entries
      :: flat_map (fun e => os_walk (snd e)) entries.
Proof. reflexivity. Qed.

Lemma extra_file_dirs name n d d' :
  extra_file name n d d' -> is_dir d = true /\ is_dir d' = true.
Proof. destruct 1; auto. Qed.

Lemma extra_file_walk name n d d' :
  extra_file name n d d' ->
  is_dir n = false -> endswith name "xml" = false ->
  map selected (os_walk d) = map selected (os_walk d').
Proof.
  intros Hx Hn Hname.
  induction Hx as [pre post | pre post dname d d' Hx IH];
    rewrite !os_walk_dir, !filter_app, !flat_map_app; simpl.
  - rewrite Hn. simpl.
    assert (Hw : os_walk n = []) by (destruct n; [reflexivity | discriminate | reflexivity]).
    rewrite Hw. simpl. f_equal.
    unfold selected. rewrite !filter_app. simpl. now rewrite Hname.
  - destruct (extra_file_dirs _ _ _ _ Hx) as [Hd Hd']. rewrite Hd, Hd'. simpl.
    f_equal. rewrite !map_app. now rewrite IH.
Qed.

(** X2.  A file that is not a directory and whose name does not end in
    [xml], added to the directory or to any directory below it, changes
    nothing: the loader returns the same Report Set, or raises the same
    exception, with and without it. *)
Theorem loader_ignores_other_file (fs fs' : filesystem) path path' name n d d' :
  extra_file name n d d' ->
  is_dir n = false ->
  endswith name "xml" = false ->
  fs path = Some d ->
  fs' path' = Some d' ->
  parse_junit_reports fs' path' = parse_junit_reports fs path.
Proof.
  intros Hx Hn Hname Hd Hd'.
  pose proof (extra_file_walk _ _ _ _ Hx Hn Hname) as Hw.
  unfold parse_junit_reports. rewrite Hd, Hd'.
  destruct Hx; now rewrite (walk_selected _ _ _ Hw).
Qed.

(** A readme next to the report, in a sub-directory. *)
Lemma loader_ignores_other_file_witness :
  parse_junit_reports
    (single_path "with"
       (Dir [("run1"%string,
              Dir [("a.xml"%string, one_case_file "A" "t1" 1%float);
                   ("README"%string, Special)])]))
    "with"
  = parse_junit_reports
      (single_path "without"
         (Dir [("run1"%string,
                Dir [("a.xml"%string, one_case_file "A" "t1" 1%float)])]))
      "without".
Proof.
  apply (loader_ignores_other_file
           (single_path "without"
              (Dir [("run1"%string,
                     Dir [("a.xml"%string, one_case_file "A" "t1" 1%float)])]))
           (single_path "with"
              (Dir [("run1"%string,
                     Dir [("a.xml"%string, one_case_file "A" "t1" 1%float);
                          ("README"%string, Special)])]))
           "without" "with" "README" Special
           (Dir [("run1"%string,
                  Dir [("a.xml"%string, one_case_file "A" "t1" 1%float)])])
           (Dir [("run1"%string,
                  Dir [("a.xml"%string, one_case_file "A" "t1" 1%float);
                       ("README"%string, Special)])])).
  - apply (extra_below "README" Special [] [] "run1").
    apply (extra_here "README" Special
             [("a.xml"%string, one_case_file "A" "t1" 1%float)] []).
  - reflexivity.
  - reflexivity.
  - reflexivity.
  - reflexivity.
Defined.

(** X3.  On a directory the loader raises only what parsing a selected file
    raises: if it ends with an exception, some file of the walk whose name
    ends in [xml] fails to parse with that exception; and if every such file
    parses, the loader returns a Report Set. *)
Theorem loader_directory_errors (fs : filesystem) path entries :
  fs path = Some (Dir entries) ->
  (forall e,
     parse_junit_reports fs path = Raise e ->
     exists files name node,
       In files (os_walk (Dir entries))
       /\ In (name, node) files
       /\ endswith name "xml" = true
       /\ fromfile node = Raise e)
  /\ ((forall files name node,
         In files (os_walk (Dir entries)) ->
         In (name, node) files ->
         endswith name "xml" = true ->
         exists p, fromfile node = Ok p) ->
      exists reports, parse_junit_reports fs path = Ok reports).
Proof.
  intros Hd. unfold parse_junit_reports. rewrite Hd. split.
  - intros e H.
    destruct (for_each merge_files _ _) as [r|e'] eqn:E; simpl in H;
      [discriminate|]. injection H as ->.
    apply for_each_raise in E. destruct E as (files & s & Hin & E).
    unfold merge_files in E. apply for_each_raise in E.
    destruct E as ([name node] & s' & Hsel & E).
    apply filter_In in Hsel. destruct Hsel as [Hf Hname]. simpl in *.
    exists files, name, node. repeat split; auto.
    destruct (fromfile node); simpl in E; [discriminate | congruence].
  - intros Hall.
    destruct (for_each_ok merge_files (os_walk (Dir entries))) with
      (s := Container None []) as [r Hr].
    + intros files s Hin. unfold merge_files. apply for_each_ok.
      intros [name node] s0 Hsel. apply filter_In in Hsel.
      destruct Hsel as [Hf Hname]. simpl in *.
      destruct (Hall files name node Hin Hf Hname) as [p ->]. simpl. eauto.
    + rewrite Hr. simpl. eauto.
Qed.

(** The directory [broken_dir]: the loader fails on [resultsxml]. *)
Lemma loader_directory_errors_witness :
  exists files name node,
    In files (os_walk broken_dir)
    /\ In (name, node) files
    /\ endswith name "xml" = true
    /\ fromfile node = Raise JUnitXmlError.
Proof.
  exact (proj1 (loader_directory_errors (single_path "reports" broken_dir)
                  "reports"
                  [("results.xml"%string, one_case_file "A" "t1" 1%float);
                   ("notes.txt"%string, File None);
                   ("resultsxml"%string, File None)] eq_refl)
           JUnitXmlError eq_refl).
Defined.

(** X4.  A directory tree in which no file name ends in [xml] (an empty
    directory among them) loads as the empty Report Set; it is no error. *)
Theorem loader_no_reports (fs : filesystem) path entries :
  fs path = Some (Dir entries) ->
  (forall files name node,
     In files (os_walk (Dir entries)) -> In (name, node) files ->
     endswith name "xml" = false) ->
  parse_junit_reports fs path = Ok [].
Proof.
  intros Hd Hnone. unfold parse_junit_reports. rewrite Hd.
  assert (Hw : forall w ret_xml,
             (forall files name node,
                In files w -> In (name, node) files ->
                endswith name "xml" = false) ->
             for_each merge_files w ret_xml = Ok ret_xml).
  { induction w as [|files w IH]; intros ret_xml H; simpl; auto.
    assert (Hsel : filter (fun f => endswith (fst f) "xml") files = []).
    { assert (Hf : forall name node, In (name, node) files ->
                                     endswith name "xml" = false).
      { intros name node Hin. eapply H; [left; reflexivity | exact Hin]. }
      clear -Hf. induction files as [|[name node] files IHf]; simpl; auto.
      rewrite (Hf name node (or_introl eq_refl)). apply IHf.
      intros name' node' Hin. eapply Hf. right. exact Hin. }
    unfold merge_files. rewrite Hsel. simpl. apply IH.
    intros files' name node Hin. apply H. now right. }
  rewrite (Hw _ _ Hnone). reflexivity.
Qed.

(** A directory holding only a text file and an empty sub-directory. *)
Lemma loader_no_reports_witness :
  parse_junit_reports
    (single_path "empty"
       (Dir [("notes.txt"%string, File None); ("old"%string, Dir [])]))
    "empty"
  = Ok [].
Proof.
  apply (loader_no_reports
           (single_path "empty"
              (Dir [("notes.txt"%string, File None); ("old"%string, Dir [])]))
           "empty"
           [("notes.txt"%string, File None); ("old"%string, Dir [])] eq_refl).
  intros files name node Hfiles Hin. simpl in Hfiles.
  destruct Hfiles as [<-|[<-|[]]]; simpl in Hin.
  - destruct Hin as [[= <- <-]|[]]. reflexivity.
  - destruct Hin.
Defined.

(** ** Flattening, further *)

Lemma last_write_some_in {V} k (v : V) (l : list (string * V)) :
  last_write k l = Some v -> In (k, v) l.
Proof.
  induction l as [|[k0 v0] l IH]; [discriminate|].
  rewrite last_write_cons.
  destruct (last_write k l) as [v'|].
  - intros [= ->]. right. now apply IH.
  - destruct (String.eqb k0 k) eqn:E; [|discriminate].
    apply String.eqb_eq in E. intros [= ->]. subst. now left.
Qed.

Lemma update_fresh {V} (d acc : dict V) :
  NoDup (keys (acc ++ d)) -> update acc d = acc ++ d.
Proof.
  unfold update. revert acc.
  induction d as [|[k v] d IH]; intros acc Hnd; simpl.
  - now rewrite app_nil_r.
  - assert (Hk : ~ In k (keys acc)).
    { unfold keys in *. rewrite map_app in Hnd. simpl in Hnd.
      apply NoDup_remove_2 in Hnd. rewrite in_app_iff in Hnd. tauto. }
    rewrite setitem_fresh by exact Hk.
    rewrite IH; rewrite <- app_assoc; [reflexivity | exact Hnd].
Qed.

Lemma convert_loop_unique n (its : list item) :
  Forall (holds_below
            (fun s => NoDup (map fst (records s)) ->
                      convert_junit_to_dict s = records s)) its ->
  forall acc,
    NoDup (keys (acc ++ records (Container n its))) ->
    fold_left (convert_step n) its acc = acc ++ records (Container n its).
Proof.
  induction 1 as [|it its Hit Hall IH]; intros acc Hnd.
  - simpl. now rewrite app_nil_r.
  - simpl in Hnd.
    change (fold_left (convert_step n) (it :: its) acc)
      with (fold_left (convert_step n) its (convert_step n acc it)).
    simpl (records (Container n (it :: its))).
    rewrite app_assoc in Hnd. rewrite app_assoc.
    assert (Hstep :
              convert_step n acc it
              = acc ++ match it with
                       | Suite s => records s
                       | Case c nm t => [(test_key n c nm, t)]
                       end).
    { unfold keys in Hnd. rewrite map_app in Hnd.
      apply NoDup_app_remove_r in Hnd.
      destruct it as [s|c nm t]; unfold convert_step.
      - rewrite (Hit : _ -> convert_junit_to_dict s = records s).
        + apply update_fresh. exact Hnd.
        + rewrite map_app in Hnd. now apply NoDup_app_remove_l in Hnd.
      - apply setitem_fresh.
        rewrite map_app in Hnd. simpl in Hnd.
        apply NoDup_remove_2 in Hnd. now rewrite app_nil_r in Hnd. }
    rewrite Hstep. apply IH. exact Hnd.
Qed.

(** X5.  When no two test cases of a report get the same key, flattening
    loses nothing: the Report Set is the list of the records of the test
    cases, each key with its duration, in the order the traversal meets
    them. *)
Theorem convert_unique_keys xml :
  NoDup (map fst (records xml)) ->
  convert_junit_to_dict xml = records xml.
Proof.
  induction xml as [n its Hall] using container_induction.
  intros Hnd. rewrite convert_unfold.
  now rewrite (convert_loop_unique n its Hall empty).
Qed.

(** A root with one test case of its own and a suite of two. *)
Lemma convert_unique_keys_witness :
  convert_junit_to_dict
    (Container (Some "R"%string)
       [Case (Some "C"%string) (Some "t0"%string) 1%float;
        Suite (Container (Some "S"%string)
                 [Case (Some "C"%string) (Some "t1"%string) 2%float;
                  Case (Some "C"%string) (Some "t2"%string) 3%float])])
  = [("R.C.t0"%string, 1%float); ("S.C.t1"%string, 2%float);
     ("S.C.t2"%string, 3%float)].
Proof.
  apply (convert_unique_keys
           (Container (Some "R"%string)
              [Case (Some "C"%string) (Some "t0"%string) 1%float;
               Suite (Container (Some "S"%string)
                        [Case (Some "C"%string) (Some "t1"%string) 2%float;
                         Case (Some "C"%string) (Some "t2"%string) 3%float])])).
  simpl. repeat constructor; simpl; intuition discriminate.
Defined.

(** X6.  Every entry of the flattened mapping comes from a test case of the
    tree: its key is built from the name of the container holding that test
    case and the case's class and test names, and its value is the duration
    of that same test case. *)
Theorem convert_entries xml k t :
  get k (convert_junit_to_dict xml) = Some t ->
  exists p c nm,
    leaf_in xml p c nm t
    /\ k = (fmt p ++ "." ++ fmt c ++ "." ++ fmt nm)%string.
Proof.
  destruct (convert_records xml) as [_ ->].
  intros H. apply last_write_some_in in H. now apply records_leaf in H.
Qed.

Lemma convert_entries_witness :
  exists p c nm,
    leaf_in nested_report p c nm 1%float
    /\ "S.C.t"%string = (fmt p ++ "." ++ fmt c ++ "." ++ fmt nm)%string.
Proof.
  exact (convert_entries nested_report "S.C.t" 1%float eq_refl).
Defined.

(** ** The delta calculator and the checks, further *)

Lemma get_all_none {V} (d : dict V) : (forall k, get k d = None) -> d = [].
Proof.
  destruct d as [|[k v] d]; auto. intros H. specialize (H k). simpl in H.
  rewrite String.eqb_refl in H. discriminate.
Qed.




Lemma main_loaded (fs : filesystem) argv b c :
  parse_junit_reports fs (arg_base argv) = Ok b ->
  parse_junit_reports fs (arg_compare_to argv) = Ok c ->
  main fs argv = run_check b c (threshold (parse_args argv)).
Proof.
  intros Hb Hc. unfold main, run_check. simpl. rewrite Hb. simpl.
  rewrite Hc. reflexivity.
Qed.

(** X7.  The delta of a test depends only on the two durations of that test:
    two pairs of Report Sets that hold the same durations under the same
    keys, in whatever order, give delta mappings that hold the same
    deltas. *)
Theorem calculate_changed_order_independent base compare_to base' compare_to' :
  (forall k, get k base = get k base') ->
  (forall k, get k compare_to = get k compare_to') ->
  exists changed changed',
    calculate_changed base compare_to = Ok changed
    /\ calculate_changed base' compare_to' = Ok changed'
    /\ forall k, get k changed = get k changed'.
Proof.
  intros Hb Hc.
  destruct (calculate_changed_get base compare_to) as (d & Hd & Hget & _).
  destruct (calculate_changed_get base' compare_to') as (d' & Hd' & Hget' & _).
  exists d, d'. split; [exact Hd|]. split; [exact Hd'|].
  intros k. rewrite Hget, Hget'. unfold delta. now rewrite Hb, Hc.
Qed.

Lemma calculate_changed_order_independent_witness :
  exists changed changed',
    calculate_changed [("a", 1%float); ("b", 2%float)]%string
                      [("b", 3%float); ("a", 4%float)]%string
    = Ok changed
    /\ calculate_changed [("b", 2%float); ("a", 1%float)]%string
                         [("a", 4%float); ("b", 3%float)]%string
       = Ok changed'
    /\ forall k, get k changed = get k changed'.
Proof.
  apply calculate_changed_order_independent.
  - intros k. cbn [get].
    destruct (String.eqb "a" k) eqn:Ea; destruct (String.eqb "b" k) eqn:Eb;
      auto.
    apply String.eqb_eq in Ea. apply String.eqb_eq in Eb.
    subst k. discriminate.
  - intros k. cbn [get].
    destruct (String.eqb "a" k) eqn:Ea; destruct (String.eqb "b" k) eqn:Eb;
      auto.
    apply String.eqb_eq in Ea. apply String.eqb_eq in Eb.
    subst k. discriminate.
Defined.

Lemma zero_not_over (z : Z) :
  (0 <= z)%Z -> exceeds (PyNum.PyInt z) 0%float = false.
Proof.
  intros Hz. unfold exceeds, PyNum.gt, PyNum.float_gt_int,
    PyNum.float_compare_int.
  change (Prim2SF 0%float) with (S754_zero false).
  destruct (0 ?= z)%Z eqn:E; auto.
  apply Z.compare_gt_iff in E. lia.
Qed.

(** X8.  A test whose base duration is zero is given the delta [0] by the
    zero guard, and under a threshold that is not negative it is never among
    the tests the per-test check selects, whatever its duration in the
    compared run. *)
Theorem zero_guard_never_offends base compare_to k b c z :
  get k base = Some b ->
  get k compare_to = Some c ->
  PyNum.is_zero b = true ->
  (0 <= z)%Z ->
  exists changed over,
    calculate_changed base compare_to = Ok changed
    /\ get k changed = Some 0%float
    /\ over_threshold changed (PyNum.PyInt z) = Ok over
    /\ get k over = None.
Proof.
  intros Hb Hc Hzero Hz.
  destruct (calculate_changed_get base compare_to) as (d & Hd & Hget & Hnd).
  assert (Hk : get k d = Some 0%float).
  { rewrite Hget. unfold delta, percentage. now rewrite Hb, Hc, Hzero. }
  exists d, (offending d (PyNum.PyInt z)).
  split; [exact Hd|]. split; [exact Hk|].
  split; [now apply over_threshold_numeric|].
  destruct (get k (offending d (PyNum.PyInt z))) as [v|] eqn:E; auto.
  apply get_offending in E; [|exact Hnd]. destruct E as [Hv Hex].
  rewrite Hk in Hv. injection Hv as <-.
  rewrite (zero_not_over z Hz) in Hex. discriminate.
Qed.

(** A test that took no measurable time in the base run and 5 s after. *)
Lemma zero_guard_never_offends_witness :
  exists changed over,
    calculate_changed [("S.C.t1", 0%float)]%string [("S.C.t1", 5%float)]%string
    = Ok changed
    /\ get "S.C.t1"%string changed = Some 0%float
    /\ over_threshold changed (PyNum.PyInt 10) = Ok over
    /\ get "S.C.t1"%string over = None.
Proof.
  apply (zero_guard_never_offends
           [("S.C.t1", 0%float)]%string [("S.C.t1", 5%float)]%string
           "S.C.t1" 0%float 5%float 10 eq_refl eq_refl eq_refl).
  lia.
Defined.

(** X9.  The check of the total can fail without naming a single test: when
    no delta is over the threshold, the total is over it and the compared
    run has no test the base run lacks, [ThresholdExceeded] is raised with
    an empty payload. *)
Theorem total_check_empty_payload changed base compare_to thr total :
  (forall k v, In (k, v) changed -> PyNum.gt v thr = Ok false) ->
  total_percentage_changed base compare_to = Ok total ->
  PyNum.gt total thr = Ok true ->
  (forall k, In k (keys compare_to) -> In k (keys base)) ->
  check changed base compare_to thr
  = Raise (ThresholdExceeded total_message []).
Proof.
  intros Hpass Htot Hgt Hsub. unfold check.
  rewrite (over_threshold_none changed thr Hpass). simpl.
  rewrite Htot. simpl. rewrite Hgt. simpl.
  destruct (added_time_additive base compare_to) as (added & -> & Hget).
  simpl. do 2 f_equal. apply get_all_none. intros k.
  destruct (get k added) as [v|] eqn:E; auto.
  apply Hget in E. destruct E as [Hc Hb].
  apply get_none_not_in in Hb. exfalso. apply Hb. apply Hsub.
  apply get_in_keys. congruence.
Qed.

(** The zero guard hides the test that went from 0 s to 5 s; the total went
    from 1 s to 6 s, and the error names no test. *)
Lemma total_check_empty_payload_witness :
  run_check [("S.C.t1", 0%float); ("S.C.t2", 1%float)]%string
            [("S.C.t1", 5%float); ("S.C.t2", 1%float)]%string
            (PyNum.PyInt 10)
  = Raise (ThresholdExceeded total_message []).
Proof.
  change (check [("S.C.t1"%string, 0%float); ("S.C.t2"%string, 0%float)]
            [("S.C.t1", 0%float); ("S.C.t2", 1%float)]%string
            [("S.C.t1", 5%float); ("S.C.t2", 1%float)]%string
            (PyNum.PyInt 10)
          = Raise (ThresholdExceeded total_message [])).
  apply (total_check_empty_payload
           [("S.C.t1"%string, 0%float); ("S.C.t2"%string, 0%float)]
           [("S.C.t1", 0%float); ("S.C.t2", 1%float)]%string
           [("S.C.t1", 5%float); ("S.C.t2", 1%float)]%string
           (PyNum.PyInt 10) 500%float).
  - intros k v [[= <- <-]|[[= <- <-]|[]]]; reflexivity.
  - reflexivity.
  - reflexivity.
  - intros k H. exact H.
Defined.



(** X11.  A run given [-t] never passes and never reports a regression: once
    both reports load, it ends with [TypeError] at the first comparison with
    the threshold when the runs share a test or the base durations do not
    sum to zero, and with [ZeroDivisionError] when the runs share no test
    and the base durations sum to zero. *)
Theorem cli_threshold_never_passes (fs : filesystem) argv s b c :
  arg_threshold argv = Some s ->
  parse_junit_reports fs (arg_base argv) = Ok b ->
  parse_junit_reports fs (arg_compare_to argv) = Ok c ->
  ((exists k, In k (keys b) /\ In k (keys c)) ->
   main fs argv = Raise TypeError)
  /\ (PyNum.is_zero (PyNum.sum (values b)) = false ->
      main fs argv = Raise TypeError)
  /\ (main fs argv = Raise TypeError \/ main fs argv = Raise ZeroDivisionError)
  /\ ((forall k, In k (keys b) -> ~ In k (keys c)) ->
      PyNum.is_zero (PyNum.sum (values b)) = true ->
      main fs argv = Raise ZeroDivisionError).
Proof.
  intros Hthr Hb Hc.
  rewrite (main_loaded fs argv b c Hb Hc). unfold run_check.
  assert (Ht : threshold (parse_args argv) = PyNum.PyStr s).
  { unfold parse_args. simpl. now rewrite Hthr. }
  rewrite Ht.
  destruct (calculate_changed_get b c) as (d & -> & Hget & _). simpl.
  destruct d as [|[k v] d].
  - assert (Hchk : check [] b c (PyNum.PyStr s)
                   = if PyNum.is_zero (PyNum.sum (values b))
                     then Raise ZeroDivisionError else Raise TypeError).
    { unfold check, total_percentage_changed, PyNum.truediv. simpl.
      now destruct (PyNum.is_zero _). }
    rewrite Hchk. split; [|split; [|split]].
    + intros (k & Hkb & Hkc). exfalso.
      specialize (Hget k). simpl in Hget. unfold delta in Hget.
      apply get_in_keys in Hkb. apply get_in_keys in Hkc.
      destruct (get k b); [|congruence].
      destruct (get k c); [discriminate | congruence].
    + now intros ->.
    + destruct (PyNum.is_zero _); auto.
    + now intros _ ->.
  - assert (Hchk : check ((k, v) :: d) b c (PyNum.PyStr s) = Raise TypeError)
      by reflexivity.
    rewrite Hchk. split; [auto|]. split; [auto|]. split; [auto|].
    intros Hnone _. exfalso.
    specialize (Hget k). simpl in Hget. rewrite String.eqb_refl in Hget.
    unfold delta in Hget.
    destruct (get k b) as [bk|] eqn:Eb; [|discriminate].
    destruct (get k c) as [ck|] eqn:Ec; [|discriminate].
    apply (Hnone k); apply get_in_keys; congruence.
Qed.

Lemma cli_threshold_never_passes_witness :
  main two_runs {| arg_base := "base.xml"; arg_compare_to := "new.xml";
                   arg_threshold := Some "50"%string |}
  = Raise TypeError.
Proof.
  destruct (cli_threshold_never_passes two_runs
              {| arg_base := "base.xml"; arg_compare_to := "new.xml";
                 arg_threshold := Some "50"%string |}
              "50" [("S.C.t1"%string, 10%float)] [("S.C.t1"%string, 11%float)]
              eq_refl eq_refl eq_refl) as [H _].
  apply H. exists "S.C.t1"%string. simpl. tauto.
Defined.

(** X12.  When the base reports hold no test (an empty report, or a
    directory without report files), the run ends with [ZeroDivisionError]
    whatever the compared run holds and whatever the threshold is: no
    comparison is made before the total is divided by the empty sum. *)
Theorem main_empty_base (fs : filesystem) argv c :
  parse_junit_reports fs (arg_base argv) = Ok [] ->
  parse_junit_reports fs (arg_compare_to argv) = Ok c ->
  main fs argv = Raise ZeroDivisionError.
Proof.
  intros Hb Hc. rewrite (main_loaded fs argv [] c Hb Hc). reflexivity.
Qed.

Lemma main_empty_base_witness :
  main (fun p => if String.eqb p "old" then Some (Dir [])
                 else two_runs p)
       {| arg_base := "old"; arg_compare_to := "new.xml";
          arg_threshold := None |}
  = Raise ZeroDivisionError.
Proof.
  apply (main_empty_base
           (fun p => if String.eqb p "old" then Some (Dir [])
                     else two_runs p)
           {| arg_base := "old"; arg_compare_to := "new.xml";
              arg_threshold := None |}
           [("S.C.t1"%string, 11%float)]); reflexivity.
Defined.

(** X13.  Only tests of the compared run are ever reported: whichever of the
    two checks raises [ThresholdExceeded], a key that the compared run does
    not hold (a test that was removed, say) is not in the payload. *)
Theorem absent_test_never_reported base compare_to thr k msg payload :
  PyNum.is_number thr = true ->
  get k compare_to = None ->
  run_check base compare_to thr = Raise (ThresholdExceeded msg payload) ->
  get k payload = None.
Proof.
  intros Hnum Hk. unfold run_check.
  destruct (calculate_changed_get base compare_to) as (d & -> & Hget & Hnd).
  change (bind (Ok d) (fun changed => check changed base compare_to thr))
    with (check d base compare_to thr).
  unfold check. rewrite (over_threshold_numeric d thr Hnum Hnd). simpl.
  destruct (truthy (offending d thr)).
  - intros H. injection H as Hm Hp. subst payload.
    destruct (get k (offending d thr)) as [v|] eqn:E; auto.
    apply get_offending in E; [|exact Hnd]. destruct E as [E _].
    rewrite Hget in E. unfold delta in E. rewrite Hk in E.
    destruct (get k base); discriminate.
  - destruct (total_percentage_changed base compare_to) as [t|e] eqn:Et;
      simpl.
    2:{ unfold total_percentage_changed, PyNum.truediv in Et.
        destruct (PyNum.is_zero _); simpl in Et; [|discriminate].
        injection Et as <-. discriminate. }
    rewrite (gt_numeric t thr Hnum). simpl.
    destruct (exceeds thr t); [|discriminate].
    destruct (added_time_additive base compare_to) as (added & -> & Hadd).
    simpl. intros H. injection H as Hm Hp. subst payload.
    destruct (get k added) as [v|] eqn:E; auto.
    apply Hadd in E. destruct E as [E _]. congruence.
Qed.

(** The test [t0] exists in the base run only; the slower [t1] is
    reported. *)
Lemma absent_test_never_reported_witness :
  run_check [("S.C.t0", 1%float); ("S.C.t1", 10%float)]%string
            [("S.C.t1", 20%float)]%string (PyNum.PyInt 10)
  = Raise (ThresholdExceeded per_test_message [("S.C.t1"%string, 100%float)])
  /\ get "S.C.t0"%string [("S.C.t1"%string, 100%float)] = None.
Proof.
  split; [reflexivity|].
  apply (absent_test_never_reported
           [("S.C.t0", 1%float); ("S.C.t1", 10%float)]%string
           [("S.C.t1", 20%float)]%string (PyNum.PyInt 10) "S.C.t0"
           per_test_message [("S.C.t1"%string, 100%float)]);
    reflexivity.
Defined.
